(** * beancount/cparser/grammar.py: the grammar builder

    A shallow embedding of the [Builder] class of
    [beancount/cparser/grammar.py] and the properties of its semantic
    actions: option application, the [open], [document] and [transaction]
    constructors and [finalize].

    Python objects are modelled by [pyval]; the builder instance ([self]) by
    the record [BuilderState], threaded explicitly through every method; a
    Python exception leaving a method by the [Raise] outcome. *)

From Stdlib Require Import ZArith Lia Bool List Ascii String Sorted Permutation.
From stdpp Require Import base decidable option gmap strings list fin_maps.

Set Warnings "-register-all".

Local Open Scope string_scope.
Local Open Scope Z_scope.
Local Open Scope list_scope.

(* ===================================================================== *)
(** ** Python strings *)
(* ===================================================================== *)

(** A [str] is a [string] of bytes (UTF-8).  [str.lower] is modelled on the
    ASCII letters; bytes above 127 are left alone, and no character outside
    ASCII lowers to one of the letters of ["true"] or ["on"], the only words
    the builder compares a lowered string with. *)
Module PyStr.

Definition is_upper (c : ascii) : bool :=
  let n := nat_of_ascii c in (Nat.leb 65 n && Nat.leb n 90)%bool.

Definition lower_ascii (c : ascii) : ascii :=
  if is_upper c then ascii_of_nat (nat_of_ascii c + 32) else c.

Fixpoint lower (s : string) : string :=
  match s with
  | EmptyString => EmptyString
  | String c s' => String (lower_ascii c) (lower s')
  end.

Definition startswith (s p : string) : bool := String.prefix p s.

Fixpoint endswith_char (s : string) (c : ascii) : bool :=
  match s with
  | EmptyString => false
  | String d EmptyString => Ascii.eqb d c
  | String _ s' => endswith_char s' c
  end.

Definition is_empty (s : string) : bool :=
  match s with EmptyString => true | _ => false end.

(** [sep.join(parts)] *)
Fixpoint join (sep : string) (parts : list string) : string :=
  match parts with
  | [] => ""
  | [p] => p
  | p :: ps => p +:+ sep +:+ join sep ps
  end.

(** [s.split(c)] for a one-character separator: the current field is
    accumulated in [cur]. *)
Fixpoint split_aux (c : ascii) (s : string) (cur : string) : list string :=
  match s with
  | EmptyString => [cur]
  | String d s' =>
      if Ascii.eqb d c then cur :: split_aux c s' ""
      else split_aux c s' (cur +:+ String d "")
  end.

Definition split (c : ascii) (s : string) : list string := split_aux c s "".

(** [c * n] *)
Fixpoint repeat_char (c : ascii) (n : nat) : string :=
  match n with O => "" | S n' => String c (repeat_char c n') end.

End PyStr.

(* ===================================================================== *)
(** ** [os.path] (posixpath) *)
(* ===================================================================== *)

Module path.

Definition sep : ascii := "/"%char.

(** [isabs(s)]: [s.startswith('/')] *)
Definition isabs (s : string) : bool :=
  match s with
  | String c _ => Ascii.eqb c sep
  | EmptyString => false
  end.

(** [p[:p.rfind('/') + 1]] *)
Fixpoint upto_last_sep (p : string) : string :=
  match p with
  | EmptyString => ""
  | String c p' =>
      let r := upto_last_sep p' in
      if negb (PyStr.is_empty r) then String c r
      else if Ascii.eqb c sep then String c "" else ""
  end.

Fixpoint all_sep (s : string) : bool :=
  match s with
  | EmptyString => true
  | String c s' => (Ascii.eqb c sep && all_sep s')%bool
  end.

(** [s.rstrip('/')] *)
Fixpoint rstrip_sep (s : string) : string :=
  match s with
  | EmptyString => ""
  | String c s' =>
      let r := rstrip_sep s' in
      if (PyStr.is_empty r && Ascii.eqb c sep)%bool then "" else String c r
  end.

(** [dirname(p)]:
<<
    i = p.rfind(sep) + 1
    head = p[:i]
    if head and head != sep*len(head):
        head = head.rstrip(sep)
    return head
>> *)
Definition dirname (p : string) : string :=
  let head := upto_last_sep p in
  if (negb (PyStr.is_empty head) && negb (all_sep head))%bool
  then rstrip_sep head
  else head.

(** [join(a, b)] with one component [b]. *)
Definition join (a b : string) : string :=
  if PyStr.startswith b (String sep "") then b
  else if (PyStr.is_empty a || PyStr.endswith_char a sep)%bool then a +:+ b
  else a +:+ String sep "" +:+ b.

(** The loop of [normpath] over the components, [new_comps] kept in
    reverse (its head is [new_comps[-1]]). *)
Fixpoint normpath_comps (initial_slashes : nat) (comps : list string)
         (rev_new : list string) : list string :=
  match comps with
  | [] => rev rev_new
  | comp :: rest =>
      if (String.eqb comp "" || String.eqb comp ".")%bool
      then normpath_comps initial_slashes rest rev_new
      else if (negb (String.eqb comp "..")
               || (Nat.eqb initial_slashes 0
                   && match rev_new with [] => true | _ => false end)
               || match rev_new with
                  | last :: _ => String.eqb last ".."
                  | [] => false
                  end)%bool
      then normpath_comps initial_slashes rest (comp :: rev_new)
      else match rev_new with
           | _ :: rev_new' => normpath_comps initial_slashes rest rev_new'
           | [] => normpath_comps initial_slashes rest rev_new
           end
  end.

(** [normpath(path)] *)
Definition normpath (p : string) : string :=
  if PyStr.is_empty p then "."
  else
    let initial_slashes : nat :=
      if PyStr.startswith p "/" then
        if (PyStr.startswith p "//" && negb (PyStr.startswith p "///"))%bool
        then 2%nat else 1%nat
      else 0%nat in
    let comps := normpath_comps initial_slashes (PyStr.split sep p) [] in
    let body := PyStr.join "/" comps in
    let res := PyStr.repeat_char sep initial_slashes +:+ body in
    if PyStr.is_empty res then "." else res.

(** [abspath(path)]; [cwd] is what [os.getcwd()] returns. *)
Definition abspath (cwd : string) (p : string) : string :=
  normpath (if negb (isabs p) then join cwd p else p).

End path.

(* ===================================================================== *)
(** ** Python values, exceptions and outcomes *)
(* ===================================================================== *)

(** The values that travel through the builder.  [VObj cls fields] stands
    for an instance of any other class (a [Decimal], an [Amount], a member
    of an [Enum]). *)
Inductive pyval : Type :=
| VNone
| VBool (b : bool)
| VStr (s : string)
| VInt (n : Z)
| VTuple (items : list pyval)
| VList (items : list pyval)
| VDict (items : list (pyval * pyval))
| VObj (cls : string) (fields : list pyval).

(** A metadata value is an object with an identity: [is] compares
    [obj_id], not the value.  CPython's [None], [True] and [False] are
    unique objects, so any two occurrences of one of them carry the same
    [obj_id]. *)
Record pyobj : Type := PyObj { obj_id : nat; obj_val : pyval }.

Definition py_is (a b : pyobj) : bool := Nat.eqb (obj_id a) (obj_id b).

Definition Py_None : pyobj := PyObj 0 VNone.
Definition Py_True : pyobj := PyObj 1 (VBool true).
Definition Py_False : pyobj := PyObj 2 (VBool false).

Inductive exn : Type :=
| KeyError (key : string)
| NameError (name : string)
| UnboundLocalError (name : string)
| ValueError (msg : string)
| TypeError
| AttributeError
| OtherException (cls : string).

(** What a call produces: a returned value or a raised exception. *)
Inductive outcome (A : Type) : Type :=
| Return (a : A)
| Raise (e : exn).
Arguments Return {A} a.
Arguments Raise {A} e.

(** [hash(v)] succeeds. *)
Fixpoint hashable (v : pyval) : bool :=
  match v with
  | VNone | VBool _ | VStr _ | VInt _ | VObj _ _ => true
  | VTuple items => forallb hashable items
  | VList _ | VDict _ => false
  end.

(** [a == b] on hashable values ([True == 1] and [False == 0] hold in
    Python). *)
Fixpoint py_eq (a b : pyval) {struct a} : bool :=
  let fix all_eq (xs ys : list pyval) {struct xs} : bool :=
    match xs, ys with
    | [], [] => true
    | x :: xs', y :: ys' => (py_eq x y && all_eq xs' ys')%bool
    | _, _ => false
    end in
  match a, b with
  | VNone, VNone => true
  | VBool x, VBool y => Bool.eqb x y
  | VBool x, VInt n => Z.eqb n (if x then 1 else 0)
  | VInt n, VBool x => Z.eqb n (if x then 1 else 0)
  | VInt x, VInt y => Z.eqb x y
  | VStr x, VStr y => String.eqb x y
  | VTuple xs, VTuple ys => all_eq xs ys
  | VObj c xs, VObj d ys => (String.eqb c d && all_eq xs ys)%bool
  | _, _ => false
  end.

(** [d[k] = v] on the items of a [dict], in insertion order. *)
Fixpoint dict_setitem (d : list (pyval * pyval)) (k v : pyval)
  : list (pyval * pyval) :=
  match d with
  | [] => [(k, v)]
  | (k', v') :: d' =>
      if py_eq k' k then (k', v) :: d' else (k', v') :: dict_setitem d' k v
  end.

(* ===================================================================== *)
(** ** The records of [beancount.core.data] and of this module *)
(* ===================================================================== *)

(** A metadata [dict]: string keys, object values. *)
Abbreviation meta_dict := (gmap string pyobj).

(** [KeyValue = namedtuple('KeyValue', 'key value')] *)
Record KeyValue : Type := mkKeyValue { kv_key : string; kv_value : pyobj }.

(** [TagsLinks = namedtuple('TagsLinks', 'tags links')] *)
Record TagsLinks : Type :=
  mkTagsLinks { tl_tags : gset string; tl_links : gset string }.

(** [Posting(account, units, cost, price, flag, meta)]; [meta] is [None]
    or a [dict]. *)
Record Posting : Type := mkPosting {
  p_account : string;
  p_units : pyval;
  p_cost : pyval;
  p_price : pyval;
  p_flag : pyval;
  p_meta : option meta_dict
}.

(** [last_posting._replace(meta=m)] *)
Definition Posting_replace_meta (p : Posting) (m : meta_dict) : Posting :=
  mkPosting (p_account p) (p_units p) (p_cost p) (p_price p) (p_flag p) (Some m).

(** An element of [posting_or_kv_list]. *)
Inductive item : Type :=
| IPosting (p : Posting)
| ITagsLinks (tl : TagsLinks)
| IKeyValue (kv : KeyValue).

(** [datetime.date]; dates compare as the triples (year, month, day). *)
Record date : Type := mkDate { year : Z; month : Z; day : Z }.

(** The directives, with the fields their constructors take. *)
Inductive Directive : Type :=
| Open (meta : meta_dict) (d : date) (account : string) (currencies : pyval)
       (booking : pyval)
| Close (meta : meta_dict) (d : date) (account : string)
| Commodity (meta : meta_dict) (d : date) (currency : string)
| Pad (meta : meta_dict) (d : date) (account source_account : string)
| Balance (meta : meta_dict) (d : date) (account : string) (amount : pyval)
| Event (meta : meta_dict) (d : date) (type description : string)
| Query (meta : meta_dict) (d : date) (name query_string : string)
| Price (meta : meta_dict) (d : date) (currency : string) (amount : pyval)
| Note (meta : meta_dict) (d : date) (account comment : string)
| Document (meta : meta_dict) (d : date) (account filename : string)
           (tags links : gset string)
| Custom (meta : meta_dict) (d : date) (type : string) (values : pyval)
| Transaction (meta : meta_dict) (d : date) (flag : Z)
              (payee : option string) (narration : string)
              (tags links : gset string) (postings : list Posting).

Inductive DirectiveKind : Type :=
| KOpen | KClose | KCommodity | KPad | KBalance | KEvent | KQuery | KPrice
| KNote | KDocument | KCustom | KTransaction.

(** [type(entry)] *)
Definition entry_kind (e : Directive) : DirectiveKind :=
  match e with
  | Open _ _ _ _ _ => KOpen
  | Close _ _ _ => KClose
  | Commodity _ _ _ => KCommodity
  | Pad _ _ _ _ => KPad
  | Balance _ _ _ _ => KBalance
  | Event _ _ _ _ => KEvent
  | Query _ _ _ _ => KQuery
  | Price _ _ _ _ => KPrice
  | Note _ _ _ _ => KNote
  | Document _ _ _ _ _ _ => KDocument
  | Custom _ _ _ _ => KCustom
  | Transaction _ _ _ _ _ _ _ _ => KTransaction
  end.

(** [entry.date] *)
Definition entry_date (e : Directive) : date :=
  match e with
  | Open _ d _ _ _ | Close _ d _ | Commodity _ d _ | Pad _ d _ _
  | Balance _ d _ _ | Event _ d _ _ | Query _ d _ _ | Price _ d _ _
  | Note _ d _ _ | Document _ d _ _ _ _ | Custom _ d _ _
  | Transaction _ d _ _ _ _ _ _ => d
  end.

(** An argument of [str.format]. *)
Inductive fmt_arg : Type :=
| AStr (s : string)
| AVal (v : pyval)
| AExn (e : exn)
| AKeyValue (kv : KeyValue)
| ATagsLinks (tl : TagsLinks)
| AStrings (l : option (list string)).

(** An error message: a literal [str], or [template.format(args)] kept
    unevaluated (the rendering of objects by [str()] is not modelled). *)
Inductive message : Type :=
| Text (s : string)
| Format (template : string) (args : list fmt_arg).

(** The three error tuples, each [(source, message, entry)]. *)
Inductive Error : Type :=
| ParserError (source : meta_dict) (msg : message) (entry : option Directive)
| ParserSyntaxError (source : meta_dict) (msg : message) (entry : option Directive)
| DeprecatedError (source : meta_dict) (msg : message) (entry : option Directive).

Definition error_message (e : Error) : message :=
  match e with
  | ParserError _ m _ | ParserSyntaxError _ m _ | DeprecatedError _ m _ => m
  end.

Definition error_entry (e : Error) : option Directive :=
  match e with
  | ParserError _ _ x | ParserSyntaxError _ _ x | DeprecatedError _ _ x => x
  end.

(* ===================================================================== *)
(** ** Collaborators outside this file *)
(* ===================================================================== *)

(** An entry of [options.OPTIONS]: the attributes of a descriptor that
    [Builder.option] reads.  A converter returns the converted value or
    raises. *)
Record OptDescriptor : Type := mkOpt {
  opt_deprecated : option string;
  opt_alias : option string;
  opt_converter : option (pyval -> outcome pyval)
}.

(** The names this module imports whose code lives elsewhere:
    [beancount.parser.options] ([OPTIONS], [OPTIONS_DEFAULTS],
    [READ_ONLY_OPTIONS]), [beancount.core.data] ([new_metadata], the members
    of the [Booking] enumeration, the kind priority read by
    [entry_sortkey]) and [beancount.core.account] ([sep],
    [ACC_COMP_NAME_RE]). *)
Class Collaborators : Type := {
  OPTIONS : gmap string OptDescriptor;
  OPTIONS_DEFAULTS : gmap string pyval;
  READ_ONLY_OPTIONS : gset string;
  new_metadata : string -> Z -> option (list KeyValue) -> meta_dict;
  Booking_members : list string;
  SORT_ORDER : DirectiveKind -> Z;
  account_sep : string;
  ACC_COMP_NAME_RE : string
}.

(** [Booking[name]]: the member of that name, or [KeyError]. *)
Definition Booking_getitem `{Collaborators} (name : string) : outcome pyval :=
  if bool_decide (name ∈ Booking_members)
  then Return (VObj "Booking" [VStr name])
  else Raise (KeyError name).

(* ===================================================================== *)
(** ** The builder instance *)
(* ===================================================================== *)

(** [display_context.DisplayContext]: what the builder tells it. *)
Record DisplayContext : Type := mkDisplayContext {
  dc_commas : pyval;
  dc_updates : list (pyval * pyval)
}.

Definition DisplayContext_val (dc : DisplayContext) : pyval :=
  VObj "DisplayContext"
       [dc_commas dc;
        VList (map (fun nc => VTuple [fst nc; snd nc]) (dc_updates dc))].

(** The attributes of [self] that the methods below read or write, with
    the two pieces of process state they touch: [sys.path] and the working
    directory.  ([self.accounts] is set by [__init__] and never read.) *)
Record BuilderState : Type := mkBuilder {
  errors : list Error;
  entries : list Directive;
  options : gmap string pyval;
  account_regexp : string;
  dcontext : DisplayContext;
  sys_path : list string;
  cwd : string
}.

Definition set_errors (self : BuilderState) (es : list Error) : BuilderState :=
  mkBuilder es (entries self) (options self) (account_regexp self)
            (dcontext self) (sys_path self) (cwd self).

Definition set_options (self : BuilderState) (o : gmap string pyval)
  : BuilderState :=
  mkBuilder (errors self) (entries self) o (account_regexp self)
            (dcontext self) (sys_path self) (cwd self).

Definition set_account_regexp (self : BuilderState) (r : string)
  : BuilderState :=
  mkBuilder (errors self) (entries self) (options self) r
            (dcontext self) (sys_path self) (cwd self).

Definition set_dcontext (self : BuilderState) (dc : DisplayContext)
  : BuilderState :=
  mkBuilder (errors self) (entries self) (options self) (account_regexp self)
            dc (sys_path self) (cwd self).

Definition set_sys_path (self : BuilderState) (sp : list string)
  : BuilderState :=
  mkBuilder (errors self) (entries self) (options self) (account_regexp self)
            (dcontext self) sp (cwd self).

(** A method: from the instance to an outcome and the instance after the
    call.  Mutations made before an exception stay. *)
Definition M (A : Type) : Type := BuilderState -> outcome A * BuilderState.

Definition ret {A} (a : A) : M A := fun self => (Return a, self).

Definition raise {A} (e : exn) : M A := fun self => (Raise e, self).

Definition bind {A B} (m : M A) (k : A -> M B) : M B :=
  fun self =>
    match m self with
    | (Return a, self') => k a self'
    | (Raise e, self') => (Raise e, self')
    end.

Notation "'do' x <- m ;; k" := (bind m (fun x => k))
  (at level 10, x name, m at level 99, k at level 200).
Notation "'run' m ;; k" := (bind m (fun _ => k))
  (at level 10, m at level 99, k at level 200).

(** Lift the outcome of a pure call. *)
Definition lift {A} (o : outcome A) : M A := fun self => (o, self).

(** [self.errors.append(e)] *)
Definition errors_append (e : Error) : M unit :=
  fun self => (Return tt, set_errors self (errors self ++ [e])).

(** [self.options[key]] *)
Definition options_getitem (key : string) : M pyval :=
  fun self =>
    match options self !! key with
    | Some v => (Return v, self)
    | None => (Raise (KeyError key), self)
    end.

(** [self.options[key] = value] *)
Definition options_setitem (key : string) (value : pyval) : M unit :=
  fun self => (Return tt, set_options self (<[key := value]> (options self))).

(** [options.OPTIONS[key]] *)
Definition OPTIONS_getitem `{Collaborators} (key : string) : M OptDescriptor :=
  match OPTIONS !! key with
  | Some d => ret d
  | None => raise (KeyError key)
  end.

(** The value of a local variable that may not have been assigned yet. *)
Definition load_local {A} (name : string) (v : option A) : M A :=
  match v with
  | Some a => ret a
  | None => raise (UnboundLocalError name)
  end.

(** Truth value of a [str]-or-[None] attribute. *)
Definition truthy_str (s : option string) : option string :=
  match s with
  | Some s' => if PyStr.is_empty s' then None else Some s'
  | None => None
  end.

(* ===================================================================== *)
(** ** [valid_account_regexp] and the constructor *)
(* ===================================================================== *)

(** [map(options.__getitem__, keys)], consumed: the first missing key
    raises [KeyError]. *)
Fixpoint getitems (o : gmap string pyval) (keys : list string)
  : outcome (list pyval) :=
  match keys with
  | [] => Return []
  | k :: ks =>
      match o !! k with
      | None => Raise (KeyError k)
      | Some v =>
          match getitems o ks with
          | Return vs => Return (v :: vs)
          | Raise e => Raise e
          end
      end
  end.

(** The items [str.join] accepts: every one a [str], else [TypeError]. *)
Fixpoint str_items (vs : list pyval) : outcome (list string) :=
  match vs with
  | [] => Return []
  | VStr s :: vs' =>
      match str_items vs' with
      | Return ss => Return (s :: ss)
      | Raise e => Raise e
      end
  | _ :: _ => Raise TypeError
  end.

(** [valid_account_regexp(options)]; the field keeps the text of the
    pattern handed to [re.compile]. *)
Definition valid_account_regexp `{Collaborators} (o : gmap string pyval)
  : outcome string :=
  match getitems o ["name_assets"; "name_liabilities"; "name_equity";
                    "name_income"; "name_expenses"] with
  | Raise e => Raise e
  | Return vs =>
      match str_items vs with
      | Raise e => Raise e
      | Return names =>
          Return ("(?:" +:+ PyStr.join "|" names +:+ ")(?:"
                  +:+ account_sep +:+ ACC_COMP_NAME_RE +:+ ")+")
      end
  end.

(** [Builder.__init__], in a process with the given [sys.path] and working
    directory. *)
Definition __init__ `{Collaborators} (sp : list string) (wd : string)
  : outcome BuilderState :=
  let opts := OPTIONS_DEFAULTS in
  match valid_account_regexp opts with
  | Raise e => Raise e
  | Return r =>
      Return (mkBuilder [] [] opts r (mkDisplayContext VNone []) sp wd)
  end.

(* ===================================================================== *)
(** ** [Builder.option] *)
(* ===================================================================== *)

(** [(value.lower() in {'true', 'on'}) or (value == '1')] *)
Definition textual_true (value : string) : bool :=
  (bool_decide (PyStr.lower value ∈ ["true"; "on"]) || String.eqb value "1")%bool.

(** Lines 259-291 of [option]: the merge into [self.options[key]] by the
    type of the stored value, then the refresh of the derived state.
    [meta] is the local variable of that name, [None] while unassigned. *)
Definition option_merge `{Collaborators} (filename : string) (key : string)
           (value : pyval) (meta : option meta_dict) : M unit :=
  do opt <- options_getitem key ;;
  do stored <-
    match opt with
    | VList items =>
        run options_setitem key (VList (items ++ [value])) ;; ret true
    | VDict items =>
        match value with
        | VTuple [dict_key; dict_value] =>
            if hashable dict_key
            then run options_setitem key
                       (VDict (dict_setitem items dict_key dict_value)) ;;
                 ret true
            else raise TypeError
        | _ =>
            do meta <- load_local "meta" meta ;;
            run errors_append
                  (ParserError meta
                     (Format "Error for option '{}': {}" [AStr key; AVal value])
                     None) ;;
            ret false
        end
    | VBool _ =>
        match value with
        | VBool b => run options_setitem key (VBool b) ;; ret true
        | VStr s => run options_setitem key (VBool (textual_true s)) ;; ret true
        | _ => raise AttributeError
        end
    | _ => run options_setitem key value ;; ret true
    end ;;
  if stored : bool then
    if PyStr.startswith key "name_" then
      fun self =>
        match valid_account_regexp (options self) with
        | Return r => (Return tt, set_account_regexp self r)
        | Raise e => (Raise e, self)
        end
    else if String.eqb key "insert_pythonpath" then
      fun self =>
        (Return tt, set_sys_path self (path.dirname filename :: sys_path self))
    else ret tt
  else ret tt.

(** [Builder.option(filename, lineno, key, value)] *)
Definition option_ `{Collaborators} (filename : string) (lineno : Z)
           (key : string) (value : pyval) : M unit :=
  fun self =>
    match options self !! key with
    | None =>
        let meta := new_metadata filename lineno None in
        errors_append
          (ParserError meta (Format "Invalid option: '{}'" [AStr key]) None) self
    | Some _ =>
        if bool_decide (key ∈ READ_ONLY_OPTIONS) then
          let meta := new_metadata filename lineno None in
          errors_append
            (ParserError meta (Format "Option '{}' may not be set" [AStr key])
                         None) self
        else
          (do option_descriptor <- OPTIONS_getitem key ;;
           do meta <-
             match truthy_str (opt_deprecated option_descriptor) with
             | Some text =>
                 let meta := new_metadata filename lineno None in
                 run errors_append (DeprecatedError meta (Text text) None) ;;
                 ret (Some meta)
             | None => ret None
             end ;;
           do kd <-
             match truthy_str (opt_alias option_descriptor) with
             | Some alias =>
                 do d <- OPTIONS_getitem alias ;; ret (alias, d)
             | None => ret (key, option_descriptor)
             end ;;
           match opt_converter (snd kd) with
           | Some converter =>
               match converter value with
               | Return value' => option_merge filename (fst kd) value' meta
               | Raise (ValueError text) =>
                   let meta := new_metadata filename lineno None in
                   errors_append
                     (ParserError meta
                        (Format "Error for option '{}': {}"
                                [AStr (fst kd); AExn (ValueError text)])
                        None)
               | Raise e => raise e
               end
           | None => option_merge filename (fst kd) value meta
           end) self
    end.

(* ===================================================================== *)
(** ** [Builder.open] and [Builder.document] *)
(* ===================================================================== *)

(** [Builder.open(filename, lineno, date, account, currencies, booking_str,
    kvlist)] *)
Definition open `{Collaborators} (filename : string) (lineno : Z) (d : date)
           (account : string) (currencies : pyval)
           (booking_str : option string) (kvlist : option (list KeyValue))
  : M Directive :=
  let meta := new_metadata filename lineno kvlist in
  do be <-
    match truthy_str booking_str with
    | Some name =>
        match Booking_getitem name with
        | Return booking => ret (booking, false)
        | Raise (KeyError _) =>
            do booking <- options_getitem "booking_method" ;;
            ret (booking, true)
        | Raise e => raise e
        end
    | None => ret (VNone, false)
    end ;;
  let entry := Open meta d account currencies (fst be) in
  run (if snd be : bool then
         errors_append
           (ParserError meta
              (Format "Invalid booking method: {}" [AStr (default "" booking_str)])
              (Some entry))
       else ret tt) ;;
  ret entry.

(** [Builder._finalize_tags_links(tags, links)]; a [frozenset] is the set
    itself and [EMPTY_SET] the empty set. *)
Definition EMPTY_SET : gset string := ∅.

Definition _finalize_tags_links (tags links : gset string)
  : gset string * gset string :=
  (if bool_decide (tags ≠ ∅) then tags else EMPTY_SET,
   if bool_decide (links ≠ ∅) then links else EMPTY_SET).

(** The names visible from the body of [document] that are bound to an
    object with [tags] and [links] attributes.  The parameters of
    [document] are [tags] and [links], two sets, and at module level
    [TagsLinks] is the class: the name [tags_links] that line 495 reads is
    bound nowhere. *)
Definition document_scope : list (string * TagsLinks) := [].

(** Reading a name that is not a local of the function. *)
Definition load_name {A} (scope : list (string * A)) (name : string) : M A :=
  match list_find (fun b => bool_decide (fst b = name)) scope with
  | Some (_, (_, a)) => ret a
  | None => raise (NameError name)
  end.

(** Lines 492-494: the filename made absolute. *)
Definition document_abspath (wd filename document_filename : string) : string :=
  if negb (path.isabs document_filename)
  then path.abspath wd (path.join (path.dirname filename) document_filename)
  else document_filename.

(** [Builder.document(filename, lineno, date, account, document_filename,
    tags, links, kvlist)] *)
Definition document `{Collaborators} (filename : string) (lineno : Z)
           (d : date) (account : string) (document_filename : string)
           (tags links : gset string) (kvlist : option (list KeyValue))
  : M Directive :=
  fun self =>
    let meta := new_metadata filename lineno kvlist in
    let document_filename :=
      document_abspath (cwd self) filename document_filename in
    (do tags_links <- load_name document_scope "tags_links" ;;
     let tl := _finalize_tags_links (tl_tags tags_links) (tl_links tags_links) in
     ret (Document meta d account document_filename (fst tl) (snd tl))) self.

(* ===================================================================== *)
(** ** [Builder.transaction] *)
(* ===================================================================== *)

(** [Builder._unpack_txn_strings(txn_strings, meta)] *)
Definition _unpack_txn_strings (txn_strings : option (list string))
           (meta : meta_dict) : M (option (option string * string)) :=
  let num_strings :=
    match txn_strings with None => 0%nat | Some l => length l end in
  match num_strings, txn_strings with
  | 1%nat, Some [narration] => ret (Some (None, narration))
  | 2%nat, Some [payee; narration] => ret (Some (Some payee, narration))
  | 0%nat, _ => ret (Some (None, ""))
  | _, _ =>
      run errors_append
            (ParserError meta
               (Format "Too many strings on transaction description: {}"
                       [AStrings txn_strings])
               None) ;;
      ret None
  end.

(** [d.setdefault(k, v)]: the value now stored under [k], and the dict. *)
Definition setdefault (d : meta_dict) (k : string) (v : pyobj)
  : pyobj * meta_dict :=
  match d !! k with
  | Some x => (x, d)
  | None => (v, <[k := v]> d)
  end.

(** [bool(d)] for a dict. *)
Definition dict_truthy (d : meta_dict) : bool := negb (Nat.eqb (size d) 0).

(** The local variables of [transaction] that its loop updates. *)
Record txn_locals : Type := mkLocals {
  explicit_meta : meta_dict;
  postings : list Posting;
  last_posting : option Posting;
  tags : gset string;
  links : gset string
}.

(** [postings.pop(-1); postings.append(p)].  It is also how a mutation of
    [last_posting.meta] shows in [postings]: [last_posting] is the object
    at [postings[-1]] (every posting of the item list is an object of its
    own, with its own [meta] dict). *)
Definition replace_last (ps : list Posting) (p : Posting) : list Posting :=
  removelast ps ++ [p].

(** One turn of the loop of lines 598-630. *)
Definition transaction_item (meta : meta_dict) (loc : txn_locals)
           (posting_or_kv : item) : M txn_locals :=
  match posting_or_kv with
  | IPosting p =>
      ret (mkLocals (explicit_meta loc) (postings loc ++ [p]) (Some p)
                    (tags loc) (links loc))
  | ITagsLinks tl =>
      match postings loc with
      | _ :: _ =>
          run errors_append
                (ParserError meta
                   (Format "Tags or links not allowed after first Posting: {}"
                           [ATagsLinks tl])
                   None) ;;
          ret loc
      | [] =>
          ret (mkLocals (explicit_meta loc) (postings loc) (last_posting loc)
                        (tags loc ∪ tl_tags tl) (links loc ∪ tl_links tl))
      end
  | IKeyValue kv =>
      match last_posting loc with
      | None =>
          let vm := setdefault (explicit_meta loc) (kv_key kv) (kv_value kv) in
          run (if negb (py_is (fst vm) (kv_value kv)) then
                 errors_append
                   (ParserError meta
                      (Format "Duplicate metadata field on entry: {}"
                              [AKeyValue kv])
                      None)
               else ret tt) ;;
          ret (mkLocals (snd vm) (postings loc) (last_posting loc)
                        (tags loc) (links loc))
      | Some lp =>
          (* lines 620-623: a posting without metadata gets an empty dict *)
          let lp1 :=
            match p_meta lp with
            | None => Posting_replace_meta lp ∅
            | Some _ => lp
            end in
          let postings1 :=
            match p_meta lp with
            | None => replace_last (postings loc) lp1
            | Some _ => postings loc
            end in
          (* lines 625-626: [setdefault] mutates the dict of [lp1] in place *)
          let vm := setdefault (default ∅ (p_meta lp1)) (kv_key kv) (kv_value kv) in
          let lp2 := Posting_replace_meta lp1 (snd vm) in
          run (if negb (py_is (fst vm) (kv_value kv)) then
                 errors_append
                   (ParserError meta
                      (Format "Duplicate posting metadata field: {}"
                              [AKeyValue kv])
                      None)
               else ret tt) ;;
          ret (mkLocals (explicit_meta loc) (replace_last postings1 lp2)
                        (Some lp2) (tags loc) (links loc))
      end
  end.

(** The [for] loop: the items in order. *)
Fixpoint transaction_loop (meta : meta_dict) (items : list item)
         (loc : txn_locals) : M txn_locals :=
  match items with
  | [] => ret loc
  | it :: rest =>
      do loc' <- transaction_item meta loc it ;;
      transaction_loop meta rest loc'
  end.

(** [chr(i)]: the one-character string of code point [i], kept as the code
    point; [ValueError] outside [range(0x110000)]. *)
Definition chr (i : Z) : outcome Z :=
  if ((0 <=? i) && (i <? 1114112))%bool then Return i
  else Raise (ValueError "chr() arg not in range(0x110000)").

(** [Builder.transaction(filename, lineno, date, flag, txn_strings, tags,
    links, posting_or_kv_list, active_meta)]; the result [None] is the
    dropped transaction.  [tags] and [links] are sets, as the docstring
    has them.  An error recorded by the loop carries [meta] as it is when
    the error is recorded (in Python the error holds the dict itself,
    which lines 637 and 641 update afterwards). *)
Definition transaction `{Collaborators} (filename : string) (lineno : Z)
           (d : date) (flag : Z) (txn_strings : option (list string))
           (tags0 links0 : gset string)
           (posting_or_kv_list : option (list item))
           (active_meta : option meta_dict) : M (option Directive) :=
  let meta := new_metadata filename lineno None in
  do loc <-
    transaction_loop meta (default [] posting_or_kv_list)
                     (mkLocals ∅ [] None tags0 links0) ;;
  let tl := _finalize_tags_links (tags loc) (links loc) in
  let meta :=
    match active_meta with
    | Some am => if dict_truthy am then am ∪ meta else meta
    | None => meta
    end in
  let meta :=
    if dict_truthy (explicit_meta loc) then explicit_meta loc ∪ meta
    else meta in
  do payee_narration <- _unpack_txn_strings txn_strings meta ;;
  match payee_narration with
  | None => ret None
  | Some (payee, narration) =>
      do flag_chr <- lift (chr flag) ;;
      ret (Some (Transaction meta d flag_chr payee narration
                             (fst tl) (snd tl) (postings loc)))
  end.

(* ===================================================================== *)
(** ** [Builder.finalize] *)
(* ===================================================================== *)

Definition date_eqb (a b : date) : bool :=
  ((year a =? year b) && (month a =? month b) && (day a =? day b))%bool.

(** [a < b] on dates. *)
Definition date_ltb (a b : date) : bool :=
  ((year a <? year b)
   || ((year a =? year b)
       && ((month a <? month b)
           || ((month a =? month b) && (day a <? day b)))))%bool.

(** Modelled from the spec: [beancount.core.data.entry_sortkey] is not in
    this file.  The spec gives the key as the date, then a directive-kind
    priority; the priority of each kind is the collaborator's
    [SORT_ORDER]. *)
Definition entry_sortkey `{Collaborators} (e : Directive) : date * Z :=
  (entry_date e, SORT_ORDER (entry_kind e)).

(** [k1 == k2] and [k1 < k2] on the key tuples. *)
Definition sortkey_eqb (k1 k2 : date * Z) : bool :=
  (date_eqb (fst k1) (fst k2) && (snd k1 =? snd k2))%bool.

Definition sortkey_ltb (k1 k2 : date * Z) : bool :=
  (date_ltb (fst k1) (fst k2)
   || (date_eqb (fst k1) (fst k2) && (snd k1 <? snd k2)))%bool.

(** [sorted(l, key=key)]: Python's sort is stable and compares keys with
    [<] only; it is modelled by the stable insertion sort, which yields the
    same list.  [insert_by] puts [x] before the first element whose key is
    not below the key of [x]. *)
Fixpoint insert_by {A} (key : A -> date * Z) (x : A) (l : list A) : list A :=
  match l with
  | [] => [x]
  | y :: l' =>
      if sortkey_ltb (key y) (key x) then y :: insert_by key x l'
      else x :: y :: l'
  end.

Fixpoint sorted {A} (key : A -> date * Z) (l : list A) : list A :=
  match l with
  | [] => []
  | x :: l' => insert_by key x (sorted key l')
  end.

(** [Builder.get_entries()] *)
Definition get_entries `{Collaborators} : M (list Directive) :=
  fun self => (Return (sorted entry_sortkey (entries self)), self).

(** [Builder.get_options()] *)
Definition get_options : M (gmap string pyval) :=
  do dc <- (fun self => (Return (DisplayContext_val (dcontext self)), self)) ;;
  run options_setitem "dcontext" dc ;;
  fun self => (Return (options self), self).

(** [self.dcontext.set_commas(value)] *)
Definition dcontext_set_commas (value : pyval) : M unit :=
  fun self =>
    (Return tt,
     set_dcontext self (mkDisplayContext value (dc_updates (dcontext self)))).

(** [Builder.finalize()] *)
Definition finalize `{Collaborators}
  : M (list Directive * list Error * gmap string pyval) :=
  do render_commas <- options_getitem "render_commas" ;;
  run dcontext_set_commas render_commas ;;
  do es <- get_entries ;;
  do errs <- (fun self => (Return (errors self), self)) ;;
  do opts <- get_options ;;
  ret (es, errs, opts).

(* ===================================================================== *)
(** ** Vocabulary of the properties *)
(* ===================================================================== *)

(** The order on dates and on sort keys, as propositions. *)
Definition date_lt (a b : date) : Prop :=
  year a < year b
  \/ (year a = year b
      /\ (month a < month b \/ (month a = month b /\ day a < day b))).

Definition sortkey_le (k1 k2 : date * Z) : Prop :=
  date_lt (fst k1) (fst k2) \/ (fst k1 = fst k2 /\ snd k1 <= snd k2).

(** The bundles of an item list: all of them, those met before the first
    posting, and those met after a posting. *)
Fixpoint bundles (items : list item) : list TagsLinks :=
  match items with
  | [] => []
  | ITagsLinks tl :: rest => tl :: bundles rest
  | _ :: rest => bundles rest
  end.

Fixpoint early_bundles (items : list item) : list TagsLinks :=
  match items with
  | [] => []
  | IPosting _ :: _ => []
  | ITagsLinks tl :: rest => tl :: early_bundles rest
  | IKeyValue _ :: rest => early_bundles rest
  end.

Fixpoint late_bundles (items : list item) : list TagsLinks :=
  match items with
  | [] => []
  | IPosting _ :: rest => bundles rest
  | _ :: rest => late_bundles rest
  end.

(** [isinstance(value, tuple) and len(value) == 2] *)
Definition is_pair (value : pyval) : bool :=
  match value with
  | VTuple [_; _] => true
  | _ => false
  end.

(** The error of line 604 for a bundle. *)
Definition tags_links_error (meta : meta_dict) (tl : TagsLinks) : Error :=
  ParserError meta
    (Format "Tags or links not allowed after first Posting: {}" [ATagsLinks tl])
    None.

(** The errors of lines 616 and 628 about a duplicate key. *)
Definition is_duplicate_key_error (e : Error) : bool :=
  match error_message e with
  | Format _ [AKeyValue _] => true
  | _ => false
  end.

(** [not postings] *)
Definition no_postings (loc : txn_locals) : bool :=
  match postings loc with
  | [] => true
  | _ :: _ => false
  end.

(** The error of line 616. *)
Definition duplicate_entry_error (meta : meta_dict) (kv : KeyValue) : Error :=
  ParserError meta
    (Format "Duplicate metadata field on entry: {}" [AKeyValue kv]) None.

(** The error of line 545. *)
Definition too_many_strings_error (meta : meta_dict)
           (txn_strings : option (list string)) : Error :=
  ParserError meta
    (Format "Too many strings on transaction description: {}"
            [AStrings txn_strings])
    None.

(** The [meta] of a transaction: line 591, then lines 636-641. *)
Definition transaction_meta `{Collaborators} (filename : string) (lineno : Z)
           (active_meta : option meta_dict) (explicit : meta_dict) : meta_dict :=
  let meta := new_metadata filename lineno None in
  let meta :=
    match active_meta with
    | Some am => if dict_truthy am then am ∪ meta else meta
    | None => meta
    end in
  if dict_truthy explicit then explicit ∪ meta else meta.

(* ===================================================================== *)
(** ** A concrete set of collaborators, for the examples *)
(* ===================================================================== *)

Definition example_new_metadata (filename : string) (lineno : Z)
           (kvlist : option (list KeyValue)) : meta_dict :=
  fold_left (fun m kv => <[kv_key kv := kv_value kv]> m) (default [] kvlist)
            (<["lineno" := PyObj 4 (VInt lineno)]>
               (<["filename" := PyObj 3 (VStr filename)]> ∅)).

Definition plain : OptDescriptor := mkOpt None None None.

Definition example_OPTIONS : gmap string OptDescriptor :=
  list_to_map
    [("title", plain); ("name_assets", plain); ("name_liabilities", plain);
     ("name_equity", plain); ("name_income", plain); ("name_expenses", plain);
     ("operating_currency", plain); ("render_commas", plain);
     ("booking_method", plain); ("tolerance_map", plain);
     ("old_tolerance_map",
      mkOpt (Some "This option has been renamed to 'tolerance_map'")
            (Some "tolerance_map") None);
     ("filename", plain)].

Definition example_OPTIONS_DEFAULTS : gmap string pyval :=
  list_to_map
    [("title", VStr "Beancount"); ("name_assets", VStr "Assets");
     ("name_liabilities", VStr "Liabilities"); ("name_equity", VStr "Equity");
     ("name_income", VStr "Income"); ("name_expenses", VStr "Expenses");
     ("operating_currency", VList []); ("render_commas", VBool false);
     ("booking_method", VObj "Booking" [VStr "STRICT"]);
     ("tolerance_map", VDict []); ("old_tolerance_map", VDict []);
     ("filename", VNone)].

Definition example_SORT_ORDER (k : DirectiveKind) : Z :=
  match k with
  | KOpen => -2
  | KBalance => -1
  | KDocument => 1
  | KClose => 2
  | _ => 0
  end.

Definition example_collaborators : Collaborators := {|
  OPTIONS := example_OPTIONS;
  OPTIONS_DEFAULTS := example_OPTIONS_DEFAULTS;
  READ_ONLY_OPTIONS := {["filename"]};
  new_metadata := example_new_metadata;
  Booking_members := ["STRICT"; "NONE"; "AVERAGE"; "FIFO"; "LIFO"];
  SORT_ORDER := example_SORT_ORDER;
  account_sep := ":";
  ACC_COMP_NAME_RE := "[A-Z0-9][A-Za-z0-9\-]*"
|}.

(** The builder right after [__init__], run from [/home/u]. *)
Definition example_self : BuilderState :=
  mkBuilder [] [] example_OPTIONS_DEFAULTS
    "(?:Assets|Liabilities|Equity|Income|Expenses)(?::[A-Z0-9][A-Za-z0-9\-]*)+"
    (mkDisplayContext VNone []) [] "/home/u".

(* ===================================================================== *)
(** ** The other session operations *)
(* ===================================================================== *)

Definition set_entries (self : BuilderState) (es : list Directive)
  : BuilderState :=
  mkBuilder (errors self) es (options self) (account_regexp self)
            (dcontext self) (sys_path self) (cwd self).

(** [Builder.store_result(filename, lineno, entries)]; [entries] may be
    [None]. *)
Definition store_result (filename : string) (lineno : Z)
           (new_entries : option (list Directive)) : M unit :=
  fun self =>
    let self1 :=
      match new_entries with
      | Some (e :: es) => set_entries self (e :: es)
      | _ => self
      end in
    options_setitem "filename" (VStr filename) self1.

(** [self.options[key].append(x)]: [KeyError] without the key, and only a
    list has [append]. *)
Definition options_append (key : string) (x : pyval) : M unit :=
  do opt <- options_getitem key ;;
  match opt with
  | VList items => options_setitem key (VList (items ++ [x]))
  | _ => raise AttributeError
  end.

(** [Builder.include(filename, lineno, include_filename)] *)
Definition include (filename : string) (lineno : Z)
           (include_filename : string) : M unit :=
  options_append "include" (VStr include_filename).

(** [Builder.plugin(filename, lineno, plugin_name, plugin_config)];
    [plugin_config] is a string or [None]. *)
Definition plugin (filename : string) (lineno : Z) (plugin_name : string)
           (plugin_config : option string) : M unit :=
  options_append "plugin"
    (VTuple [VStr plugin_name;
             match plugin_config with Some c => VStr c | None => VNone end]).

(** [Builder.handle_list(filename, lineno, object_list, new_object)];
    either argument may be [None]. *)
Definition handle_list {A} (filename : string) (lineno : Z)
           (object_list : option (list A)) (new_object : option A) : list A :=
  let object_list := default [] object_list in
  match new_object with
  | Some x => object_list ++ [x]
  | None => object_list
  end.

(** Calls made one after the other; an exception ends the sequence. *)
Fixpoint sequence_ (calls : list (M unit)) : M unit :=
  match calls with
  | [] => ret tt
  | m :: rest => run m ;; sequence_ rest
  end.

(* ===================================================================== *)
(** ** Vocabulary of the further properties *)
(* ===================================================================== *)

(** [d.get(k)] on the items of a [dict]. *)
Fixpoint dict_getitem (d : list (pyval * pyval)) (k : pyval) : option pyval :=
  match d with
  | [] => None
  | (k', v') :: d' => if py_eq k' k then Some v' else dict_getitem d' k
  end.

(** The options [valid_account_regexp] reads. *)
Definition name_options : list string :=
  ["name_assets"; "name_liabilities"; "name_equity"; "name_income";
   "name_expenses"].

(** The pattern of account names is the one the options give. *)
Definition regexp_in_sync `{Collaborators} (self : BuilderState) : Prop :=
  valid_account_regexp (options self) = Return (account_regexp self).

(** The postings of an item list, in order. *)
Fixpoint posting_items (items : list item) : list Posting :=
  match items with
  | [] => []
  | IPosting p :: rest => p :: posting_items rest
  | _ :: rest => posting_items rest
  end.

(** The keys and values met before the first posting. *)
Fixpoint early_key_values (items : list item) : list KeyValue :=
  match items with
  | [] => []
  | IPosting _ :: _ => []
  | IKeyValue kv :: rest => kv :: early_key_values rest
  | ITagsLinks _ :: rest => early_key_values rest
  end.

(** The value of the first of [kvs] whose key is [k]. *)
Definition first_value (k : string) (kvs : list KeyValue) : option pyobj :=
  kv_value <$> List.find (fun kv => String.eqb (kv_key kv) k) kvs.

(** A posting and what it becomes in the transaction: the same fields,
    and a metadata that holds at least what the posting came with. *)
Definition posting_kept (p q : Posting) : Prop :=
  p_account q = p_account p /\ p_units q = p_units p /\ p_cost q = p_cost p
  /\ p_price q = p_price p /\ p_flag q = p_flag p
  /\ default ∅ (p_meta p) ⊆ default ∅ (p_meta q).

(** A schema whose [booking_method] has a converter, and a builder whose
    store holds the two list options of [include] and [plugin]. *)
Definition example_booking_converter (v : pyval) : outcome pyval :=
  match v with
  | VStr name =>
      if bool_decide (name ∈ ["STRICT"; "NONE"; "AVERAGE"; "FIFO"; "LIFO"])
      then Return (VObj "Booking" [VStr name])
      else Raise (ValueError "Invalid booking method")
  | _ => Raise TypeError
  end.

Definition converting_collaborators : Collaborators := {|
  OPTIONS :=
    <["booking_method" := mkOpt None None (Some example_booking_converter)]>
      example_OPTIONS;
  OPTIONS_DEFAULTS := example_OPTIONS_DEFAULTS;
  READ_ONLY_OPTIONS := {["filename"]};
  new_metadata := example_new_metadata;
  Booking_members := ["STRICT"; "NONE"; "AVERAGE"; "FIFO"; "LIFO"];
  SORT_ORDER := example_SORT_ORDER;
  account_sep := ":";
  ACC_COMP_NAME_RE := "[A-Z0-9][A-Za-z0-9\-]*"
|}.

Definition session_self : BuilderState :=
  set_options example_self
    (<["include" := VList []]>
       (<["plugin" := VList []]> example_OPTIONS_DEFAULTS)).

(* ===================================================================== *)
(** * Properties *)
(* ===================================================================== *)

Example init_example :
  @__init__ example_collaborators [] "/home/u" = Return example_self.
Proof. vm_compute. reflexivity. Qed.

Example dirname_main : path.dirname "/x/y/main.txt" = "/x/y".
Proof. reflexivity. Qed.

Example dirname_root : path.dirname "/main.txt" = "/".
Proof. reflexivity. Qed.

Example dirname_bare : path.dirname "main.txt" = "".
Proof. reflexivity. Qed.

Example normpath_dots : path.normpath "/x/./y/../z//a.pdf" = "/x/z/a.pdf".
Proof. reflexivity. Qed.

Example abspath_relative :
  path.abspath "/home/u" "docs/a.pdf" = "/home/u/docs/a.pdf".
Proof. reflexivity. Qed.

(* --------------------------------------------------------------------- *)
(** ** The state record and the monad *)
(* --------------------------------------------------------------------- *)

Lemma set_errors_set_errors self es1 es2 :
  set_errors (set_errors self es1) es2 = set_errors self es2.
Proof. reflexivity. Qed.

Lemma set_errors_id self : set_errors self (errors self) = self.
Proof. destruct self; reflexivity. Qed.

Lemma set_errors_app_nil self : set_errors self (errors self ++ []) = self.
Proof. rewrite app_nil_r. apply set_errors_id. Qed.

Lemma options_set_errors self es : options (set_errors self es) = options self.
Proof. reflexivity. Qed.

Lemma errors_set_errors self es : errors (set_errors self es) = es.
Proof. reflexivity. Qed.

Lemma truthy_str_Some s t : truthy_str s = Some t -> s = Some t /\ t <> "".
Proof.
  destruct s as [u|]; simpl; [|discriminate].
  destruct u; simpl; [discriminate|].
  intros [= <-]. split; [reflexivity | discriminate].
Qed.

Lemma truthy_str_None s : truthy_str s = None <-> s = None \/ s = Some "".
Proof.
  destruct s as [u|]; simpl.
  - destruct u; simpl; split; intros Hs; auto; try discriminate.
    destruct Hs as [Hs | Hs]; discriminate.
  - split; auto.
Qed.

(* --------------------------------------------------------------------- *)
(** ** [option]: unknown keys *)
(* --------------------------------------------------------------------- *)

Section OptionProperties.
Context `{Collaborators}.

(** A key the option store does not hold: one [ParserError] is appended and
    nothing else of the builder changes. *)
Lemma option_unknown_to_store filename lineno key value self :
  options self !! key = None ->
  option_ filename lineno key value self
  = (Return tt,
     set_errors self
       (errors self
        ++ [ParserError (new_metadata filename lineno None)
                        (Format "Invalid option: '{}'" [AStr key]) None])).
Proof. intros Hk. unfold option_. rewrite Hk. reflexivity. Qed.

(** C7. For every key that is not in the option schema, applying an option
    with that key appends exactly one semantic error (a [ParserError]) to
    the error list and leaves the option store, and every other attribute
    of the builder, as it was.  The builder tests the key against its
    store, which holds the keys the schema gave it. *)
Theorem option_unknown_key filename lineno key value self :
  dom (options self) ⊆ dom OPTIONS ->
  key ∉ dom OPTIONS ->
  exists e,
    option_ filename lineno key value self
    = (Return tt, set_errors self (errors self ++ [e]))
    /\ e = ParserError (new_metadata filename lineno None)
                       (Format "Invalid option: '{}'" [AStr key]) None
    /\ options (snd (option_ filename lineno key value self)) = options self
    /\ length (errors (snd (option_ filename lineno key value self)))
       = S (length (errors self)).
Proof.
  intros Hdom Hkey.
  assert (Hstore : options self !! key = None).
  { apply not_elem_of_dom. intros Hin. apply Hkey, Hdom, Hin. }
  eexists. rewrite (option_unknown_to_store _ _ _ _ _ Hstore).
  repeat split. simpl. rewrite length_app. simpl. lia.
Qed.

End OptionProperties.

Lemma option_unknown_key_witness :
  exists e,
    @option_ example_collaborators "/x/main.txt" 7 "no_such_option"
             (VStr "v") example_self
    = (Return tt, set_errors example_self (errors example_self ++ [e])).
Proof.
  destruct (@option_unknown_key example_collaborators "/x/main.txt" 7
              "no_such_option" (VStr "v") example_self) as (e & He & _).
  - apply (bool_decide_unpack _). vm_compute. exact I.
  - apply (bool_decide_unpack _). vm_compute. exact I.
  - exists e. exact He.
Defined.

(* --------------------------------------------------------------------- *)
(** ** [option]: from the call to the merge *)
(* --------------------------------------------------------------------- *)

Section OptionMerge.
Context `{Collaborators}.

(** A known, writable key whose descriptors are in the schema and whose
    converter (if any) returns [v]: [option] records the deprecation
    notice, if there is one, and merges [v] under the canonical key. *)
Lemma option_reaches_merge filename lineno key value self v0 desc desc' v :
  options self !! key = Some v0 ->
  key ∉ READ_ONLY_OPTIONS ->
  OPTIONS !! key = Some desc ->
  OPTIONS !! default key (truthy_str (opt_alias desc)) = Some desc' ->
  default Return (opt_converter desc') value = Return v ->
  option_ filename lineno key value self
  = match truthy_str (opt_deprecated desc) with
    | Some text =>
        let meta := new_metadata filename lineno None in
        option_merge filename (default key (truthy_str (opt_alias desc))) v
          (Some meta)
          (set_errors self
             (errors self ++ [DeprecatedError meta (Text text) None]))
    | None =>
        option_merge filename (default key (truthy_str (opt_alias desc))) v
          None self
    end.
Proof.
  intros Hstore Hro Hdesc Hdesc' Hconv.
  unfold option_. rewrite Hstore.
  rewrite bool_decide_eq_false_2 by exact Hro.
  unfold bind at 1. unfold OPTIONS_getitem at 1. rewrite Hdesc. unfold ret at 1.
  destruct (truthy_str (opt_deprecated desc)) as [text|];
    destruct (truthy_str (opt_alias desc)) as [alias|]; simpl in Hdesc' |- *;
    unfold bind, OPTIONS_getitem, errors_append, ret; simpl;
    rewrite ?Hdesc', ?Hdesc; simpl.
  all: try (assert (desc' = desc) as -> by congruence).
  all: destruct (opt_converter _) as [conv|]; simpl in Hconv |- *;
    [rewrite Hconv; reflexivity | injection Hconv as ->; reflexivity].
Qed.

(** The refresh that ends [option_merge] does not touch the store. *)
Lemma option_merge_boolean filename key v meta self b0 :
  options self !! key = Some (VBool b0) ->
  (forall s, v = VStr s ->
     options (snd (option_merge filename key v meta self))
     = <[key := VBool (textual_true s)]> (options self))
  /\ (forall b, v = VBool b ->
        options (snd (option_merge filename key v meta self))
        = <[key := VBool b]> (options self)).
Proof.
  intros Hstore. unfold option_merge, bind, options_getitem.
  rewrite Hstore. split; intros x ->; simpl;
    unfold options_setitem, ret; simpl;
    destruct (PyStr.startswith key "name_"); simpl;
    try (destruct (valid_account_regexp _); reflexivity);
    destruct (String.eqb key "insert_pythonpath"); reflexivity.
Qed.

(** A mapping-typed option and a value that is not a pair, with [meta]
    bound: the error is recorded and the call ends. *)
Lemma option_merge_mapping_bound filename key value meta self items :
  options self !! key = Some (VDict items) ->
  is_pair value = false ->
  option_merge filename key value (Some meta) self
  = (Return tt,
     set_errors self
       (errors self
        ++ [ParserError meta
              (Format "Error for option '{}': {}" [AStr key; AVal value])
              None])).
Proof.
  intros Hstore Hpair. unfold option_merge, bind, options_getitem.
  rewrite Hstore.
  destruct value as [| | | |[|a [|b [|c l]]]| | |]; try discriminate Hpair;
    reflexivity.
Qed.

(** The same with [meta] unbound: reading it raises, before anything is
    recorded. *)
Lemma option_merge_mapping_unbound filename key value self items :
  options self !! key = Some (VDict items) ->
  is_pair value = false ->
  option_merge filename key value None self
  = (Raise (UnboundLocalError "meta"), self).
Proof.
  intros Hstore Hpair. unfold option_merge, bind, options_getitem.
  rewrite Hstore.
  destruct value as [| | | |[|a [|b [|c l]]]| | |]; try discriminate Hpair;
    reflexivity.
Qed.

(** C1. A mapping-typed option applied to a value that is not a (subkey,
    subvalue) pair should record an error and return.  For a key that is
    not deprecated the local [meta] read at line 269 was never assigned:
    the call leaves [option] with [UnboundLocalError], and no error is
    recorded. *)
Theorem option_mapping_not_deprecated filename lineno key value self
      v0 desc desc' v items :
  options self !! key = Some v0 ->
  key ∉ READ_ONLY_OPTIONS ->
  OPTIONS !! key = Some desc ->
  OPTIONS !! default key (truthy_str (opt_alias desc)) = Some desc' ->
  default Return (opt_converter desc') value = Return v ->
  truthy_str (opt_deprecated desc) = None ->
  options self !! default key (truthy_str (opt_alias desc)) = Some (VDict items) ->
  is_pair v = false ->
  option_ filename lineno key value self
  = (Raise (UnboundLocalError "meta"), self).
Proof.
  intros Hstore Hro Hdesc Hdesc' Hconv Hdep Hdict Hpair.
  rewrite (option_reaches_merge _ _ _ _ _ _ _ _ _ Hstore Hro Hdesc Hdesc' Hconv).
  rewrite Hdep. eapply option_merge_mapping_unbound; eassumption.
Qed.

(** The same for a deprecated key: the deprecation notice and the error
    are recorded, the store is left as it was, and the call returns. *)
Lemma option_mapping_deprecated filename lineno key value self
      v0 desc desc' v items text :
  options self !! key = Some v0 ->
  key ∉ READ_ONLY_OPTIONS ->
  OPTIONS !! key = Some desc ->
  OPTIONS !! default key (truthy_str (opt_alias desc)) = Some desc' ->
  default Return (opt_converter desc') value = Return v ->
  truthy_str (opt_deprecated desc) = Some text ->
  options self !! default key (truthy_str (opt_alias desc)) = Some (VDict items) ->
  is_pair v = false ->
  option_ filename lineno key value self
  = (Return tt,
     set_errors self
       (errors self
        ++ [DeprecatedError (new_metadata filename lineno None) (Text text) None;
            ParserError (new_metadata filename lineno None)
              (Format "Error for option '{}': {}"
                 [AStr (default key (truthy_str (opt_alias desc))); AVal v])
              None])).
Proof.
  intros Hstore Hro Hdesc Hdesc' Hconv Hdep Hdict Hpair.
  rewrite (option_reaches_merge _ _ _ _ _ _ _ _ _ Hstore Hro Hdesc Hdesc' Hconv).
  rewrite Hdep. cbv zeta.
  erewrite option_merge_mapping_bound; [| exact Hdict | exact Hpair].
  rewrite set_errors_set_errors. simpl. rewrite <- app_assoc. reflexivity.
Qed.

End OptionMerge.

(* --------------------------------------------------------------------- *)
(** ** [option]: mapping-typed and boolean keys *)
(* --------------------------------------------------------------------- *)

Lemma option_mapping_unbound_meta_witness :
  @option_ example_collaborators "/x/main.txt" 3 "tolerance_map"
           (VStr "USD") example_self
  = (Raise (UnboundLocalError "meta"), example_self).
Proof.
  assert (Hro : "tolerance_map" ∉ @READ_ONLY_OPTIONS example_collaborators).
  { apply (bool_decide_unpack _). vm_compute. exact I. }
  exact (@option_mapping_not_deprecated example_collaborators "/x/main.txt" 3
           "tolerance_map" (VStr "USD") example_self (VDict []) plain plain
           (VStr "USD") [] eq_refl Hro eq_refl eq_refl eq_refl eq_refl eq_refl
           eq_refl).
Defined.

(** Through the deprecated alias of the same key, [meta] is bound by the
    deprecation notice and the error is recorded. *)
Example option_mapping_through_deprecated_alias :
  exists e1 e2,
    @option_ example_collaborators "/x/main.txt" 3 "old_tolerance_map"
             (VStr "USD") example_self
    = (Return tt, set_errors example_self [e1; e2]).
Proof. do 2 eexists. vm_compute. reflexivity. Qed.

Lemma textual_true_spec s :
  textual_true s = true
  <-> PyStr.lower s = "true" \/ PyStr.lower s = "on" \/ s = "1".
Proof.
  unfold textual_true.
  rewrite orb_true_iff, bool_decide_eq_true, String.eqb_eq.
  rewrite !elem_of_cons, elem_of_nil. tauto.
Qed.

Example textual_true_upper : textual_true "TRUE" = true.
Proof. reflexivity. Qed.

Example textual_true_on : textual_true "On" = true.
Proof. reflexivity. Qed.

Example textual_true_one : textual_true "1" = true.
Proof. reflexivity. Qed.

Example textual_true_zero : textual_true "0" = false.
Proof. reflexivity. Qed.

Example textual_true_yes : textual_true "yes" = false.
Proof. reflexivity. Qed.

(** C6. For a key of boolean kind (the value stored under its canonical
    key is a [bool]) that reaches the merge, a textual value [s] stores
    [true] exactly when [s] lowered is ["true"] or ["on"], or [s] is the
    literal ["1"], and [false] for every other string; a native boolean is
    stored as it is.  [v] is the raw value, or what the converter of the
    key makes of it. *)
Theorem option_boolean_kind `{Collaborators} filename lineno key value self
        v0 desc desc' v b0 :
  options self !! key = Some v0 ->
  key ∉ READ_ONLY_OPTIONS ->
  OPTIONS !! key = Some desc ->
  OPTIONS !! default key (truthy_str (opt_alias desc)) = Some desc' ->
  default Return (opt_converter desc') value = Return v ->
  options self !! default key (truthy_str (opt_alias desc)) = Some (VBool b0) ->
  (forall s, v = VStr s ->
     options (snd (option_ filename lineno key value self))
     = <[default key (truthy_str (opt_alias desc)) := VBool (textual_true s)]>
         (options self))
  /\ (forall b, v = VBool b ->
        options (snd (option_ filename lineno key value self))
        = <[default key (truthy_str (opt_alias desc)) := VBool b]>
            (options self))
  /\ (forall s, textual_true s = true
                <-> PyStr.lower s = "true" \/ PyStr.lower s = "on" \/ s = "1")
  /\ textual_true "0" = false.
Proof.
  intros Hstore Hro Hdesc Hdesc' Hconv Hbool.
  rewrite (option_reaches_merge _ _ _ _ _ _ _ _ _ Hstore Hro Hdesc Hdesc' Hconv).
  repeat split; try apply textual_true_spec.
  - intros s ->. destruct (truthy_str (opt_deprecated desc)); cbv zeta;
      match goal with
      | |- options (snd (option_merge ?f ?k ?x ?m ?st)) = _ =>
          destruct (option_merge_boolean f k x m st b0 Hbool) as [Hs _];
          exact (Hs s eq_refl)
      end.
  - intros b ->. destruct (truthy_str (opt_deprecated desc)); cbv zeta;
      match goal with
      | |- options (snd (option_merge ?f ?k ?x ?m ?st)) = _ =>
          destruct (option_merge_boolean f k x m st b0 Hbool) as [_ Hb];
          exact (Hb b eq_refl)
      end.
Qed.

Lemma option_boolean_kind_witness :
  options (snd (@option_ example_collaborators "/x/main.txt" 2 "render_commas"
                         (VStr "TRUE") example_self))
  = <["render_commas" := VBool true]> (options example_self).
Proof.
  assert (Hro : "render_commas" ∉ @READ_ONLY_OPTIONS example_collaborators).
  { apply (bool_decide_unpack _). vm_compute. exact I. }
  exact (proj1 (@option_boolean_kind example_collaborators "/x/main.txt" 2
                  "render_commas" (VStr "TRUE") example_self
                  (VBool false) plain plain (VStr "TRUE") false
                  eq_refl Hro eq_refl eq_refl eq_refl eq_refl)
               "TRUE" eq_refl).
Defined.

(* --------------------------------------------------------------------- *)
(** ** [open] and [document] *)
(* --------------------------------------------------------------------- *)

(** Lines 492-494 on the example of the specification. *)
Example document_abspath_example :
  document_abspath "/home/u" "/x/y/main.txt" "a.pdf" = "/x/y/a.pdf".
Proof. reflexivity. Qed.

Example document_abspath_absolute :
  document_abspath "/home/u" "/x/y/main.txt" "/z/a.pdf" = "/z/a.pdf".
Proof. reflexivity. Qed.

(** C2. [document] should return a [Document] whose filename is resolved
    against the directory of the source file.  Lines 492-494 compute that
    path (["/x/y/a.pdf"] for ["a.pdf"] parsed from ["/x/y/main.txt"]), but
    line 495 then reads the name [tags_links], which is bound nowhere: every
    call leaves [document] with [NameError] and no directive is returned. *)
Theorem document_raises_name_error `{Collaborators} filename lineno d account
        document_filename tags links kvlist self :
  document filename lineno d account document_filename tags links kvlist self
  = (Raise (NameError "tags_links"), self)
  /\ document_abspath (cwd self) "/x/y/main.txt" "a.pdf" = "/x/y/a.pdf".
Proof. split; reflexivity. Qed.

Example document_example :
  @document example_collaborators "/x/y/main.txt" 12 (mkDate 2014 5 30)
            "Assets:Cash" "a.pdf" ∅ ∅ None example_self
  = (Raise (NameError "tags_links"), example_self).
Proof. reflexivity. Qed.

Section OpenProperties.
Context `{Collaborators}.

Lemma Booking_getitem_member name :
  name ∈ Booking_members ->
  Booking_getitem name = Return (VObj "Booking" [VStr name]).
Proof.
  intros Hin. unfold Booking_getitem.
  rewrite bool_decide_eq_true_2 by exact Hin. reflexivity.
Qed.

Lemma Booking_getitem_other name :
  name ∉ Booking_members -> Booking_getitem name = Raise (KeyError name).
Proof.
  intros Hin. unfold Booking_getitem.
  rewrite bool_decide_eq_false_2 by exact Hin. reflexivity.
Qed.

(** C8, as the code has it.  An absent or empty booking token yields
    booking [None] and no error; a non-empty token naming a member of the
    enumeration yields that member and no error; a non-empty token naming
    no member yields the configured default booking method ([dflt], the
    value of the option [booking_method]), records exactly one error and
    still returns the [Open] directive. *)
Theorem open_booking filename lineno d account currencies booking_str kvlist
        self dflt :
  options self !! "booking_method" = Some dflt ->
  let meta := new_metadata filename lineno kvlist in
  let result :=
    open filename lineno d account currencies booking_str kvlist self in
  (booking_str = None \/ booking_str = Some "" ->
   result = (Return (Open meta d account currencies VNone), self))
  /\ (forall name,
        booking_str = Some name -> name <> "" -> name ∈ Booking_members ->
        result
        = (Return (Open meta d account currencies (VObj "Booking" [VStr name])),
           self))
  /\ (forall name,
        booking_str = Some name -> name <> "" -> name ∉ Booking_members ->
        result
        = (Return (Open meta d account currencies dflt),
           set_errors self
             (errors self
              ++ [ParserError meta
                    (Format "Invalid booking method: {}" [AStr name])
                    (Some (Open meta d account currencies dflt))]))).
Proof.
  intros Hdflt meta result. subst meta result. unfold open.
  split; [|split].
  - intros Habs. apply truthy_str_None in Habs. rewrite Habs.
    unfold bind, ret. simpl. reflexivity.
  - intros name -> Hne Hin.
    assert (truthy_str (Some name) = Some name) as ->.
    { destruct name; [congruence | reflexivity]. }
    rewrite (Booking_getitem_member _ Hin). reflexivity.
  - intros name -> Hne Hin.
    assert (truthy_str (Some name) = Some name) as ->.
    { destruct name; [congruence | reflexivity]. }
    rewrite (Booking_getitem_other _ Hin).
    unfold bind, options_getitem. rewrite Hdflt. reflexivity.
Qed.

End OpenProperties.

Lemma open_booking_witness :
  @open example_collaborators "/x/main.txt" 4 (mkDate 2014 1 1) "Assets:Cash"
        VNone (Some "STRICT") None example_self
  = (Return (Open (example_new_metadata "/x/main.txt" 4 None)
                  (mkDate 2014 1 1) "Assets:Cash" VNone
                  (VObj "Booking" [VStr "STRICT"])),
     example_self)
  /\ exists e,
      @open example_collaborators "/x/main.txt" 4 (mkDate 2014 1 1)
            "Assets:Cash" VNone (Some "NOTAREALMETHOD") None example_self
      = (Return (Open (example_new_metadata "/x/main.txt" 4 None)
                      (mkDate 2014 1 1) "Assets:Cash" VNone
                      (VObj "Booking" [VStr "STRICT"])),
         set_errors example_self [e]).
Proof.
  split.
  - refine (proj1 (proj2 (@open_booking example_collaborators "/x/main.txt" 4
                            (mkDate 2014 1 1) "Assets:Cash" VNone
                            (Some "STRICT") None example_self
                            (VObj "Booking" [VStr "STRICT"]) eq_refl))
                  "STRICT" eq_refl _ _).
    + discriminate.
    + apply (bool_decide_unpack _). vm_compute. exact I.
  - eexists.
    refine (proj2 (proj2 (@open_booking example_collaborators "/x/main.txt" 4
                            (mkDate 2014 1 1) "Assets:Cash" VNone
                            (Some "NOTAREALMETHOD") None example_self
                            (VObj "Booking" [VStr "STRICT"]) eq_refl))
                  "NOTAREALMETHOD" eq_refl _ _).
    + discriminate.
    + apply (bool_decide_unpack _). vm_compute. exact I.
Defined.

(** C8 as stated fails at the empty token: [""] names no member of the
    enumeration, yet [open] returns booking [None] and records no error,
    where the claim asks for the default method and one error. *)
Lemma open_empty_token_counterexample :
  ("" ∉ @Booking_members example_collaborators)
  /\ @open example_collaborators "/x/main.txt" 4 (mkDate 2014 1 1)
           "Assets:Cash" VNone (Some "") None example_self
     = (Return (Open (example_new_metadata "/x/main.txt" 4 None)
                     (mkDate 2014 1 1) "Assets:Cash" VNone VNone),
        example_self)
  /\ ~ (exists e,
          @open example_collaborators "/x/main.txt" 4 (mkDate 2014 1 1)
                "Assets:Cash" VNone (Some "") None example_self
          = (Return (Open (example_new_metadata "/x/main.txt" 4 None)
                          (mkDate 2014 1 1) "Assets:Cash" VNone
                          (VObj "Booking" [VStr "STRICT"])),
             set_errors example_self (errors example_self ++ [e]))).
Proof.
  split; [|split].
  - apply (bool_decide_unpack _). vm_compute. exact I.
  - reflexivity.
  - intros [e He]. discriminate He.
Qed.

(* --------------------------------------------------------------------- *)
(** ** [transaction]: the loop over the items *)
(* --------------------------------------------------------------------- *)

Lemma finalize_tags_links_id t l : _finalize_tags_links t l = (t, l).
Proof.
  unfold _finalize_tags_links, EMPTY_SET.
  f_equal; case_bool_decide as Hd; try reflexivity;
    destruct (decide (t = ∅)); destruct (decide (l = ∅)); subst;
    try reflexivity; try (exfalso; apply Hd; assumption); tauto.
Qed.

Lemma replace_last_not_nil ps p : replace_last ps p <> [].
Proof. unfold replace_last. destruct (removelast ps); discriminate. Qed.

Lemma no_postings_false loc : postings loc <> [] -> no_postings loc = false.
Proof. unfold no_postings. destruct (postings loc); congruence. Qed.

(** The loop always runs to its end; it extends the error list, merges
    the bundles met while there is no posting and records one error for
    each bundle met afterwards: the errors it records, those about a
    duplicate key apart, are one for each such bundle, in order. *)
Lemma transaction_loop_spec meta items :
  forall loc self,
    (is_Some (last_posting loc) -> postings loc <> []) ->
    exists loc' new,
      transaction_loop meta items loc self
      = (Return loc', set_errors self (errors self ++ new))
      /\ tags loc'
         = tags loc
           ∪ ⋃ (tl_tags <$> (if no_postings loc then early_bundles items else []))
      /\ links loc'
         = links loc
           ∪ ⋃ (tl_links <$> (if no_postings loc then early_bundles items else []))
      /\ List.filter (fun e => negb (is_duplicate_key_error e)) new
         = tags_links_error meta
             <$> (if no_postings loc then late_bundles items else bundles items).
Proof.
  induction items as [|it rest IH]; intros loc self Hinv.
  - exists loc, []. simpl. rewrite set_errors_app_nil.
    destruct (no_postings loc); simpl; rewrite !union_empty_r_L;
      repeat split; reflexivity.
  - destruct it as [p | tl | kv].
    + (* a posting *)
      set (loc1 := mkLocals (explicit_meta loc) (postings loc ++ [p]) (Some p)
                            (tags loc) (links loc)).
      destruct (IH loc1 self) as (loc' & new & Hrun & Ht & Hl & He).
      { intros _. simpl. destruct (postings loc); discriminate. }
      assert (Hnp : no_postings loc1 = false).
      { apply no_postings_false. simpl. destruct (postings loc); discriminate. }
      rewrite Hnp in Ht, Hl, He.
      exists loc', new. simpl. unfold bind, ret. fold loc1. rewrite Hrun.
      destruct (no_postings loc); repeat split; assumption.
    + (* a bundle *)
      simpl. unfold bind.
      destruct (no_postings loc) eqn:Hnp.
      * assert (Eps : postings loc = []).
        { unfold no_postings in Hnp. destruct (postings loc); congruence. }
        rewrite Eps.
        set (loc1 := mkLocals (explicit_meta loc) (postings loc)
                              (last_posting loc) (tags loc ∪ tl_tags tl)
                              (links loc ∪ tl_links tl)).
        assert (Hnp1 : no_postings loc1 = true) by exact Hnp.
        destruct (IH loc1 self Hinv) as (loc' & new & Hrun & Ht & Hl & He).
        rewrite Hnp1 in Ht, Hl, He.
        exists loc', new. unfold ret.
        subst loc1. rewrite Eps in Hrun. rewrite Hrun. simpl in Ht, Hl.
        repeat split; try assumption.
        -- rewrite Ht. simpl. rewrite (assoc_L (∪)). reflexivity.
        -- rewrite Hl. simpl. rewrite (assoc_L (∪)). reflexivity.
      * assert (Eps : exists p0 ps, postings loc = p0 :: ps).
        { unfold no_postings in Hnp. destruct (postings loc); [congruence|eauto]. }
        destruct Eps as (p0 & ps & Eps). rewrite Eps.
        unfold errors_append, ret.
        destruct (IH loc (set_errors self (errors self ++ [tags_links_error meta tl])) Hinv)
          as (loc' & new & Hrun & Ht & Hl & He).
        rewrite Hnp in Ht, Hl, He.
        exists loc', (tags_links_error meta tl :: new).
        unfold tags_links_error in Hrun at 1 2. rewrite Hrun.
        rewrite set_errors_set_errors. simpl errors.
        rewrite <- app_assoc. simpl.
        repeat split; try assumption.
        rewrite He. reflexivity.
    + (* a key and its value *)
      simpl. unfold bind.
      destruct (last_posting loc) as [lp|] eqn:Elp.
      * assert (Hnp : no_postings loc = false).
        { apply no_postings_false, Hinv. eauto. }
        match goal with
        | |- context [ret (mkLocals ?a ?b ?c ?d ?e)] =>
            set (loc1 := mkLocals a b c d e)
        end.
        assert (Hnp1 : no_postings loc1 = false).
        { apply no_postings_false. subst loc1. simpl. apply replace_last_not_nil. }
        match goal with
        | |- context [if ?c then errors_append ?e else ret tt] =>
            destruct c; unfold errors_append, ret
        end.
        -- match goal with
           | |- context [set_errors self (errors self ++ [?e])] =>
               destruct (IH loc1 (set_errors self (errors self ++ [e])))
                 as (loc' & new & Hrun & Ht & Hl & He);
                 [intros _; subst loc1; simpl; apply replace_last_not_nil|];
                 exists loc', (e :: new)
           end.
           rewrite Hrun, set_errors_set_errors. simpl errors.
           rewrite <- app_assoc. simpl.
           rewrite Hnp1 in *. rewrite Hnp.
           repeat split; assumption.
        -- destruct (IH loc1 self) as (loc' & new & Hrun & Ht & Hl & He);
             [intros _; subst loc1; simpl; apply replace_last_not_nil|].
           exists loc', new. rewrite Hrun.
           rewrite Hnp1 in *. rewrite Hnp.
           repeat split; assumption.
      * match goal with
        | |- context [ret (mkLocals ?a ?b ?c ?d ?e)] =>
            set (loc1 := mkLocals a b c d e)
        end.
        assert (Hnp1 : no_postings loc1 = no_postings loc) by reflexivity.
        assert (Hinv1 : is_Some (last_posting loc1) -> postings loc1 <> []).
        { subst loc1. simpl. intros [? ?]. discriminate. }
        match goal with
        | |- context [if ?c then errors_append ?e else ret tt] =>
            destruct c; unfold errors_append, ret
        end.
        -- match goal with
           | |- context [set_errors self (errors self ++ [?e])] =>
               destruct (IH loc1 (set_errors self (errors self ++ [e])) Hinv1)
                 as (loc' & new & Hrun & Ht & Hl & He);
                 exists loc', (e :: new)
           end.
           rewrite Hrun, set_errors_set_errors. simpl errors.
           rewrite <- app_assoc. simpl.
           rewrite Hnp1 in *.
           destruct (no_postings loc); repeat split; assumption.
        -- destruct (IH loc1 self Hinv1) as (loc' & new & Hrun & Ht & Hl & He).
           exists loc', new. rewrite Hrun.
           rewrite Hnp1 in *.
           destruct (no_postings loc); repeat split; assumption.
Qed.

(* --------------------------------------------------------------------- *)
(** ** [transaction]: descriptor strings *)
(* --------------------------------------------------------------------- *)

Section TransactionProperties.
Context `{Collaborators}.

Lemma unpack_txn_strings_none meta self :
  _unpack_txn_strings None meta self = (Return (Some (None, "")), self).
Proof. reflexivity. Qed.

Lemma unpack_txn_strings_nil meta self :
  _unpack_txn_strings (Some []) meta self = (Return (Some (None, "")), self).
Proof. reflexivity. Qed.

Lemma unpack_txn_strings_one meta self n :
  _unpack_txn_strings (Some [n]) meta self = (Return (Some (None, n)), self).
Proof. reflexivity. Qed.

Lemma unpack_txn_strings_two meta self p n :
  _unpack_txn_strings (Some [p; n]) meta self
  = (Return (Some (Some p, n)), self).
Proof. reflexivity. Qed.

Lemma unpack_txn_strings_many meta self l :
  (2 < length l)%nat ->
  _unpack_txn_strings (Some l) meta self
  = (Return None,
     set_errors self (errors self ++ [too_many_strings_error meta (Some l)])).
Proof.
  intros Hlen. destruct l as [|a [|b [|c l]]]; simpl in Hlen; try lia.
  reflexivity.
Qed.

(** What [transaction] does once its loop has run. *)
Lemma transaction_after_loop filename lineno d flag txn_strings tags0 links0
      items active_meta self loc self1 :
  transaction_loop (new_metadata filename lineno None) (default [] items)
                   (mkLocals ∅ [] None tags0 links0) self
  = (Return loc, self1) ->
  transaction filename lineno d flag txn_strings tags0 links0 items
              active_meta self
  = let meta :=
      transaction_meta filename lineno active_meta (explicit_meta loc) in
    match _unpack_txn_strings txn_strings meta self1 with
    | (Return (Some (payee, narration)), self2) =>
        match chr flag with
        | Return c =>
            (Return (Some (Transaction meta d c payee narration
                                       (tags loc) (links loc) (postings loc))),
             self2)
        | Raise e => (Raise e, self2)
        end
    | (Return None, self2) => (Return None, self2)
    | (Raise e, self2) => (Raise e, self2)
    end.
Proof.
  intros Hloop. unfold transaction. unfold bind at 1. rewrite Hloop.
  rewrite finalize_tags_links_id. cbv zeta. unfold bind at 1.
  fold (transaction_meta filename lineno active_meta (explicit_meta loc)).
  destruct (_unpack_txn_strings _ _ self1) as [[[[payee narration]|]|e] self2];
    reflexivity.
Qed.

Lemma chr_in_range flag : 0 <= flag < 1114112 -> chr flag = Return flag.
Proof.
  intros [Hlo Hhi]. unfold chr.
  apply Z.leb_le in Hlo. apply Z.ltb_lt in Hhi. rewrite Hlo, Hhi. reflexivity.
Qed.

(** The loop of [transaction] from its initial locals. *)
Lemma transaction_loop_initial meta items tags0 links0 self :
  exists loc new,
    transaction_loop meta items (mkLocals ∅ [] None tags0 links0) self
    = (Return loc, set_errors self (errors self ++ new))
    /\ tags loc = tags0 ∪ ⋃ (tl_tags <$> early_bundles items)
    /\ links loc = links0 ∪ ⋃ (tl_links <$> early_bundles items)
    /\ List.filter (fun e => negb (is_duplicate_key_error e)) new
       = tags_links_error meta <$> late_bundles items.
Proof.
  destruct (transaction_loop_spec meta items (mkLocals ∅ [] None tags0 links0)
              self) as (loc & new & Hrun & Ht & Hl & He).
  { simpl. intros [? ?]. discriminate. }
  exists loc, new. auto.
Qed.

(** C5. The descriptor strings: an empty list unpacks to (no payee, empty
    narration), one string to (no payee, that string), two strings to
    (first as payee, second as narration), and the transaction is built
    with them; more than two strings record exactly one error after those
    of the item loop, and [transaction] returns [None]. *)
Theorem transaction_descriptor_strings filename lineno d flag txn_strings
        tags0 links0 items active_meta self :
  exists loc self1,
    transaction_loop (new_metadata filename lineno None) (default [] items)
                     (mkLocals ∅ [] None tags0 links0) self
    = (Return loc, self1)
    /\ let meta :=
         transaction_meta filename lineno active_meta (explicit_meta loc) in
       let result :=
         transaction filename lineno d flag txn_strings tags0 links0 items
                     active_meta self in
       let built payee narration :=
         (Return (Some (Transaction meta d flag payee narration
                                    (tags loc) (links loc) (postings loc))),
          self1) in
       (txn_strings = Some [] ->
        _unpack_txn_strings txn_strings meta self1
        = (Return (Some (None, "")), self1)
        /\ (0 <= flag < 1114112 -> result = built None ""))
       /\ (forall n, txn_strings = Some [n] ->
             _unpack_txn_strings txn_strings meta self1
             = (Return (Some (None, n)), self1)
             /\ (0 <= flag < 1114112 -> result = built None n))
       /\ (forall p n, txn_strings = Some [p; n] ->
             _unpack_txn_strings txn_strings meta self1
             = (Return (Some (Some p, n)), self1)
             /\ (0 <= flag < 1114112 -> result = built (Some p) n))
       /\ (forall l, txn_strings = Some l -> (2 < length l)%nat ->
             _unpack_txn_strings txn_strings meta self1
             = (Return None,
                set_errors self1
                  (errors self1 ++ [too_many_strings_error meta txn_strings]))
             /\ result
                = (Return None,
                   set_errors self1
                     (errors self1
                      ++ [too_many_strings_error meta txn_strings]))).
Proof.
  destruct (transaction_loop_initial (new_metadata filename lineno None)
              (default [] items) tags0 links0 self)
    as (loc & new & Hrun & _).
  exists loc, (set_errors self (errors self ++ new)).
  split; [exact Hrun|]. cbv zeta.
  rewrite (transaction_after_loop _ _ d flag txn_strings _ _ _ active_meta _ _ _ Hrun).
  cbv zeta.
  repeat split; intros; subst txn_strings;
    rewrite ?unpack_txn_strings_many by assumption;
    rewrite ?chr_in_range by assumption; reflexivity.
Qed.

(** C10. With [None] in place of the list of descriptor strings,
    [transaction] does what it does with the empty list: the transaction
    it builds has no payee and the empty narration, and the only errors
    recorded are those of the item loop. *)
Theorem transaction_null_strings filename lineno d flag tags0 links0 items
        active_meta self :
  0 <= flag < 1114112 ->
  transaction filename lineno d flag None tags0 links0 items active_meta self
  = transaction filename lineno d flag (Some []) tags0 links0 items
                active_meta self
  /\ exists loc self1,
      transaction_loop (new_metadata filename lineno None) (default [] items)
                       (mkLocals ∅ [] None tags0 links0) self
      = (Return loc, self1)
      /\ transaction filename lineno d flag None tags0 links0 items
                     active_meta self
         = (Return
              (Some (Transaction
                       (transaction_meta filename lineno active_meta
                                         (explicit_meta loc))
                       d flag None "" (tags loc) (links loc) (postings loc))),
            self1).
Proof.
  intros Hflag.
  destruct (transaction_loop_initial (new_metadata filename lineno None)
              (default [] items) tags0 links0 self)
    as (loc & new & Hrun & _).
  rewrite !(transaction_after_loop _ _ d flag _ _ _ _ active_meta _ _ _ Hrun).
  cbv zeta. rewrite unpack_txn_strings_none, unpack_txn_strings_nil.
  split; [reflexivity|].
  exists loc, (set_errors self (errors self ++ new)).
  split; [exact Hrun|]. rewrite (chr_in_range _ Hflag). reflexivity.
Qed.

End TransactionProperties.

Lemma transaction_descriptor_strings_witness :
  let result :=
    @transaction example_collaborators "/x/main.txt" 9 (mkDate 2014 1 1) 42
                 (Some ["a"; "b"; "c"]) ∅ ∅ None None example_self in
  fst result = Return None /\ length (errors (snd result)) = 1%nat.
Proof.
  destruct (@transaction_descriptor_strings example_collaborators
              "/x/main.txt" 9 (mkDate 2014 1 1) 42 (Some ["a"; "b"; "c"])
              ∅ ∅ None None example_self)
    as (loc & self1 & Hrun & _ & _ & _ & Hmany).
  destruct (Hmany ["a"; "b"; "c"] eq_refl) as [_ Hres]; [simpl; lia|].
  simpl in Hrun. injection Hrun as <- <-.
  cbv zeta. rewrite Hres. split; reflexivity.
Defined.

Lemma transaction_null_strings_witness :
  exists meta,
    @transaction example_collaborators "/x/main.txt" 9 (mkDate 2014 1 1) 42
                 None ∅ ∅ None None example_self
    = (Return (Some (Transaction meta (mkDate 2014 1 1) 42 None "" ∅ ∅ [])),
       example_self).
Proof.
  destruct (@transaction_null_strings example_collaborators "/x/main.txt" 9
              (mkDate 2014 1 1) 42 ∅ ∅ None None example_self)
    as (_ & loc & self1 & Hrun & Hres); [lia|].
  simpl in Hrun. injection Hrun as <- <-.
  eexists. exact Hres.
Defined.

(* --------------------------------------------------------------------- *)
(** ** [transaction]: bundles of tags and links *)
(* --------------------------------------------------------------------- *)

(** C4. In a transaction, a bundle of tags and links met after a posting
    is discarded and produces exactly one error; the bundles met before
    the first posting are merged into the tags and the links of the
    transaction, with no error.  So the errors of the item loop, those
    about a duplicate key apart, are one for each late bundle, in order;
    the tags (links) the loop ends with are those passed in and those of
    the early bundles; and they are the tags (links) of the transaction
    built. *)
Theorem transaction_tags_links `{Collaborators} filename lineno d flag
        txn_strings tags0 links0 items active_meta self :
  let result :=
    transaction filename lineno d flag txn_strings tags0 links0 items
                active_meta self in
  let early := early_bundles (default [] items) in
  let late := late_bundles (default [] items) in
  exists loc new,
    transaction_loop (new_metadata filename lineno None) (default [] items)
                     (mkLocals ∅ [] None tags0 links0) self
    = (Return loc, set_errors self (errors self ++ new))
    /\ List.filter (fun e => negb (is_duplicate_key_error e)) new
       = tags_links_error (new_metadata filename lineno None) <$> late
    /\ tags loc = tags0 ∪ ⋃ (tl_tags <$> early)
    /\ links loc = links0 ∪ ⋃ (tl_links <$> early)
    /\ (forall meta d' c payee narration txn_tags txn_links txn_postings,
          fst result
          = Return (Some (Transaction meta d' c payee narration txn_tags
                                      txn_links txn_postings)) ->
          txn_tags = tags loc /\ txn_links = links loc
          /\ snd result = set_errors self (errors self ++ new))
    /\ ((length (default [] txn_strings) <= 2)%nat -> 0 <= flag < 1114112 ->
        exists meta payee narration,
          result
          = (Return (Some (Transaction meta d flag payee narration
                                       (tags loc) (links loc) (postings loc))),
             set_errors self (errors self ++ new))).
Proof.
  cbv zeta.
  destruct (transaction_loop_initial (new_metadata filename lineno None)
              (default [] items) tags0 links0 self)
    as (loc & new & Hrun & Ht & Hl & He).
  exists loc, new.
  rewrite (transaction_after_loop _ _ d flag txn_strings _ _ _ active_meta _ _ _ Hrun).
  cbv zeta.
  repeat (split; [assumption|]).
  destruct txn_strings as [[|a [|b [|c l]]]|]; simpl.
  1-3, 5: destruct (chr flag) as [c0|e] eqn:Ec; simpl;
    (split; [intros; simplify_eq; auto|]);
    intros _ Hflag; rewrite (chr_in_range _ Hflag) in Ec; simplify_eq;
    eauto 10.
  split; [intros; discriminate|]. intros Hlen. simpl in Hlen. lia.
Qed.

Lemma transaction_tags_links_witness :
  let posting := mkPosting "Assets:Cash" VNone VNone VNone VNone None in
  let result :=
    @transaction example_collaborators "/x/main.txt" 9 (mkDate 2014 1 1) 42
      (Some ["n"]) ∅ ∅
      (Some [ITagsLinks (mkTagsLinks {["trip"]} ∅); IPosting posting;
             ITagsLinks (mkTagsLinks {["late"]} {["ln"]})])
      None example_self in
  exists meta e,
    result
    = (Return (Some (Transaction meta (mkDate 2014 1 1) 42 None "n"
                                 {["trip"]} ∅ [posting])),
       set_errors example_self [e]).
Proof.
  cbv zeta.
  destruct (@transaction_tags_links example_collaborators "/x/main.txt" 9
              (mkDate 2014 1 1) 42 (Some ["n"]) ∅ ∅
              (Some [ITagsLinks (mkTagsLinks {["trip"]} ∅);
                     IPosting (mkPosting "Assets:Cash" VNone VNone VNone VNone None);
                     ITagsLinks (mkTagsLinks {["late"]} {["ln"]})])
              None example_self)
    as (loc & new & _ & _ & _ & _ & _ & Hbuilt).
  destruct Hbuilt as (meta & payee & narration & _); [simpl; lia | lia |].
  do 2 eexists. vm_compute. reflexivity.
Defined.

(* --------------------------------------------------------------------- *)
(** ** [transaction]: duplicate metadata keys *)
(* --------------------------------------------------------------------- *)

(** A key and its value met before any posting.  A new key is stored; for
    a key already there the stored value stays, and the error is recorded
    exactly when the stored object and the new one are not the same
    object. *)
Lemma transaction_item_entry_key meta loc kv self :
  last_posting loc = None ->
  transaction_item meta loc (IKeyValue kv) self
  = match explicit_meta loc !! kv_key kv with
    | None =>
        (Return (mkLocals (<[kv_key kv := kv_value kv]> (explicit_meta loc))
                          (postings loc) None (tags loc) (links loc)),
         self)
    | Some x =>
        (Return (mkLocals (explicit_meta loc) (postings loc) None
                          (tags loc) (links loc)),
         if py_is x (kv_value kv) then self
         else set_errors self
                (errors self ++ [duplicate_entry_error meta kv]))
    end.
Proof.
  intros Hlp. unfold transaction_item. rewrite Hlp. unfold setdefault.
  destruct (explicit_meta loc !! kv_key kv) as [x|]; simpl.
  - destruct (py_is x (kv_value kv)); reflexivity.
  - unfold py_is. rewrite Nat.eqb_refl. reflexivity.
Qed.

(** Two values that are different objects under one key at the entry
    level: one error, and the first value is the one kept. *)
Example transaction_duplicate_key_distinct_objects :
  let kv1 := mkKeyValue "test" (PyObj 10 (VStr "Bananas")) in
  let kv2 := mkKeyValue "test" (PyObj 11 (VStr "Apples")) in
  exists meta,
    @transaction example_collaborators "/x/main.txt" 5 (mkDate 2013 5 18) 42
                 (Some [""]) ∅ ∅ (Some [IKeyValue kv1; IKeyValue kv2]) None
                 example_self
    = (Return (Some (Transaction meta (mkDate 2013 5 18) 42 None "" ∅ ∅ [])),
       set_errors example_self
         [duplicate_entry_error (example_new_metadata "/x/main.txt" 5 None) kv2])
    /\ meta !! "test" = Some (PyObj 10 (VStr "Bananas")).
Proof. eexists. split; vm_compute; reflexivity. Qed.

(** C3. Two [KeyValue] items with the same key in the entry scope should
    yield exactly one duplicate-key error.  The builder tells a duplicate
    by the identity of the value ([value is not posting_or_kv.value]): when
    both items carry the same object the second write is taken for the
    first, and the call records no error at all. *)
Theorem transaction_duplicate_key_same_object `{Collaborators} filename lineno
        d flag txn_strings tags0 links0 kv1 kv2 active_meta self :
  kv_key kv1 = kv_key kv2 ->
  py_is (kv_value kv1) (kv_value kv2) = true ->
  (length (default [] txn_strings) <= 2)%nat ->
  snd (transaction filename lineno d flag txn_strings tags0 links0
                   (Some [IKeyValue kv1; IKeyValue kv2]) active_meta self)
  = self.
Proof.
  intros Hkey Hsame Hlen.
  set (meta := new_metadata filename lineno None).
  assert (Hloop :
    transaction_loop meta [IKeyValue kv1; IKeyValue kv2]
                     (mkLocals ∅ [] None tags0 links0) self
    = (Return (mkLocals (<[kv_key kv1 := kv_value kv1]> ∅) [] None tags0 links0),
       self)).
  { cbn [transaction_loop]. unfold bind.
    rewrite transaction_item_entry_key by reflexivity.
    cbn [explicit_meta postings tags links]. rewrite lookup_empty.
    rewrite transaction_item_entry_key by reflexivity.
    cbn [explicit_meta postings tags links].
    rewrite <- Hkey, lookup_insert_eq, Hsame. reflexivity. }
  rewrite (transaction_after_loop _ _ d flag txn_strings _ _
             (Some [IKeyValue kv1; IKeyValue kv2]) active_meta _ _ _ Hloop).
  cbv zeta.
  destruct txn_strings as [[|a [|b [|c l]]]|]; simpl in Hlen |- *; try lia;
    destruct (chr flag); reflexivity.
Qed.

Lemma transaction_duplicate_key_same_object_witness :
  let kv1 := mkKeyValue "reviewed" Py_True in
  let kv2 := mkKeyValue "reviewed" Py_True in
  errors (snd (@transaction example_collaborators "/x/main.txt" 5
                 (mkDate 2013 5 18) 42 (Some [""]) ∅ ∅
                 (Some [IKeyValue kv1; IKeyValue kv2]) None example_self))
  = [].
Proof.
  cbv zeta.
  rewrite (@transaction_duplicate_key_same_object example_collaborators
             "/x/main.txt" 5 (mkDate 2013 5 18) 42 (Some [""]) ∅ ∅
             (mkKeyValue "reviewed" Py_True) (mkKeyValue "reviewed" Py_True)
             None example_self eq_refl eq_refl).
  - reflexivity.
  - simpl. lia.
Defined.


(** The same in the scope of one posting. *)
Example transaction_duplicate_posting_key_same_object :
  let posting := mkPosting "Assets:Cash" VNone VNone VNone VNone None in
  let kv := mkKeyValue "reviewed" Py_None in
  exists txn,
    @transaction example_collaborators "/x/main.txt" 5 (mkDate 2013 5 18) 42
                 (Some [""]) ∅ ∅
                 (Some [IPosting posting; IKeyValue kv; IKeyValue kv]) None
                 example_self
    = (Return (Some txn), example_self).
Proof. eexists. vm_compute. reflexivity. Qed.

(* --------------------------------------------------------------------- *)
(** ** [finalize]: the order of the entries *)
(* --------------------------------------------------------------------- *)

Lemma date_eq_iff (a b : date) :
  a = b <-> year a = year b /\ month a = month b /\ day a = day b.
Proof.
  split; [intros ->; auto|].
  destruct a, b; simpl. intros (-> & -> & ->). reflexivity.
Qed.

Lemma date_eqb_eq a b : date_eqb a b = true <-> a = b.
Proof.
  unfold date_eqb. rewrite !andb_true_iff, !Z.eqb_eq, date_eq_iff. tauto.
Qed.

Lemma date_ltb_lt a b : date_ltb a b = true <-> date_lt a b.
Proof.
  unfold date_ltb, date_lt.
  rewrite !orb_true_iff, !andb_true_iff, !orb_true_iff, !andb_true_iff,
    !Z.ltb_lt, !Z.eqb_eq.
  tauto.
Qed.

Lemma sortkey_ltb_true k1 k2 :
  sortkey_ltb k1 k2 = true
  <-> date_lt (fst k1) (fst k2) \/ (fst k1 = fst k2 /\ snd k1 < snd k2).
Proof.
  unfold sortkey_ltb.
  rewrite orb_true_iff, andb_true_iff, date_ltb_lt, date_eqb_eq, Z.ltb_lt.
  tauto.
Qed.

Lemma sortkey_eqb_eq k1 k2 : sortkey_eqb k1 k2 = true <-> k1 = k2.
Proof.
  unfold sortkey_eqb. rewrite andb_true_iff, date_eqb_eq, Z.eqb_eq.
  destruct k1, k2; simpl. split; [intros [-> ->]; reflexivity|].
  intros [= -> ->]. auto.
Qed.

(** Unfold the orders on keys down to integer comparisons. *)
Ltac key_arith :=
  unfold sortkey_le, date_lt in *;
  rewrite ?date_eq_iff in *;
  lia.

Lemma sortkey_ltb_le k1 k2 : sortkey_ltb k1 k2 = true -> sortkey_le k1 k2.
Proof. rewrite sortkey_ltb_true. key_arith. Qed.

Lemma sortkey_ltb_false_le k1 k2 :
  sortkey_ltb k1 k2 = false -> sortkey_le k2 k1.
Proof.
  intros Hf. assert (Hn : ~ (sortkey_ltb k1 k2 = true)) by congruence.
  rewrite sortkey_ltb_true in Hn. key_arith.
Qed.

Lemma sortkey_le_trans k1 k2 k3 :
  sortkey_le k1 k2 -> sortkey_le k2 k3 -> sortkey_le k1 k3.
Proof. key_arith. Qed.

Lemma sortkey_ltb_irrefl k : sortkey_ltb k k = false.
Proof.
  destruct (sortkey_ltb k k) eqn:E; [|reflexivity].
  apply sortkey_ltb_true in E. key_arith.
Qed.

Section Sorted.
Context {A : Type} (key : A -> date * Z).

Local Abbreviation key_le := (fun a b => sortkey_le (key a) (key b)).

Lemma insert_by_perm x l : Permutation (insert_by key x l) (x :: l).
Proof.
  induction l as [|y l IH]; simpl; [reflexivity|].
  destruct (sortkey_ltb (key y) (key x)); [|reflexivity].
  rewrite IH. apply perm_swap.
Qed.

Lemma sorted_perm l : Permutation (sorted key l) l.
Proof.
  induction l as [|x l IH]; simpl; [reflexivity|].
  rewrite insert_by_perm. apply perm_skip, IH.
Qed.

Lemma insert_by_sorted x l :
  StronglySorted key_le l -> StronglySorted key_le (insert_by key x l).
Proof.
  induction 1 as [|y l Hs IH Hall]; simpl.
  - constructor; constructor.
  - destruct (sortkey_ltb (key y) (key x)) eqn:E.
    + constructor; [exact IH|].
      rewrite Forall_forall. intros z Hz.
      rewrite (insert_by_perm x l) in Hz.
      apply elem_of_cons in Hz. destruct Hz as [-> | Hz].
      * apply sortkey_ltb_le, E.
      * rewrite Forall_forall in Hall. apply Hall, Hz.
    + apply sortkey_ltb_false_le in E.
      constructor; [constructor; assumption|].
      constructor; [exact E|].
      eapply Forall_impl; [exact Hall|].
      intros z Hz. eapply sortkey_le_trans; [exact E | exact Hz].
Qed.

Lemma sorted_sorted l : StronglySorted key_le (sorted key l).
Proof.
  induction l as [|x l IH]; simpl; [constructor|].
  apply insert_by_sorted, IH.
Qed.

(** Stability: the elements of one key keep their order. *)
Lemma insert_by_filter k x l :
  List.filter (fun a => sortkey_eqb (key a) k) (insert_by key x l)
  = List.filter (fun a => sortkey_eqb (key a) k) (x :: l).
Proof.
  induction l as [|y l IH]; [reflexivity|].
  simpl insert_by. destruct (sortkey_ltb (key y) (key x)) eqn:E; [|reflexivity].
  simpl in IH |- *. rewrite IH.
  destruct (sortkey_eqb (key y) k) eqn:Ey; [|reflexivity].
  destruct (sortkey_eqb (key x) k) eqn:Ex; [|reflexivity].
  apply sortkey_eqb_eq in Ex, Ey. rewrite Ex, Ey, sortkey_ltb_irrefl in E.
  discriminate.
Qed.

Lemma sorted_filter k l :
  List.filter (fun a => sortkey_eqb (key a) k) (sorted key l)
  = List.filter (fun a => sortkey_eqb (key a) k) l.
Proof.
  induction l as [|x l IH]; [reflexivity|].
  simpl sorted. rewrite insert_by_filter. simpl. rewrite IH. reflexivity.
Qed.

End Sorted.

(** C9. [finalize] returns the entries sorted by date ascending, entries of
    one date by the priority of their kind, and entries of one date and
    one priority in the order they came in: the result is a permutation
    of the accumulated entries, ordered by the key (date, priority), in
    which the entries of any one key keep their input order.  Being a
    function of the builder, it is the same on every run. *)
Theorem finalize_sorted `{Collaborators} self commas :
  options self !! "render_commas" = Some commas ->
  exists opts self',
    finalize self
    = (Return (sorted entry_sortkey (entries self), errors self, opts), self')
    /\ Permutation (sorted entry_sortkey (entries self)) (entries self)
    /\ StronglySorted
         (fun a b => sortkey_le (entry_sortkey a) (entry_sortkey b))
         (sorted entry_sortkey (entries self))
    /\ forall k,
        List.filter (fun e => sortkey_eqb (entry_sortkey e) k)
                    (sorted entry_sortkey (entries self))
        = List.filter (fun e => sortkey_eqb (entry_sortkey e) k) (entries self).
Proof.
  intros Hc. do 2 eexists. split; [|split; [|split]].
  - unfold finalize, bind, options_getitem. rewrite Hc. reflexivity.
  - apply sorted_perm.
  - apply sorted_sorted.
  - intros k. apply sorted_filter.
Qed.

Lemma finalize_sorted_witness :
  let meta := example_new_metadata "/x/main.txt" 1 None in
  let t1 := Transaction meta (mkDate 2014 2 1) 42 None "first" ∅ ∅ [] in
  let t2 := Transaction meta (mkDate 2014 2 1) 42 None "second" ∅ ∅ [] in
  let o := Open meta (mkDate 2014 2 1) "Assets:Cash" VNone VNone in
  let c := Close meta (mkDate 2014 1 1) "Assets:Old" in
  let self :=
    mkBuilder [] [t1; t2; o; c] example_OPTIONS_DEFAULTS ""
              (mkDisplayContext VNone []) [] "/home/u" in
  exists opts self',
    @finalize example_collaborators self
    = (Return ([c; o; t1; t2], [], opts), self').
Proof.
  cbv zeta.
  match goal with
  | |- exists _ _, @finalize _ ?st = _ =>
      destruct (@finalize_sorted example_collaborators st (VBool false) eq_refl)
        as (opts & self' & Hrun & _)
  end.
  exists opts, self'. rewrite Hrun. reflexivity.
Defined.
(* --------------------------------------------------------------------- *)
(** ** [option]: what a call may change *)
(* --------------------------------------------------------------------- *)

Section OptionEffect.
Context `{Collaborators}.

(** Every way through the merge, at once. *)
Lemma option_merge_effect filename key v meta self :
  let r := fst (option_merge filename key v meta self) in
  let st := snd (option_merge filename key v meta self) in
  entries st = entries self /\ dcontext st = dcontext self
  /\ cwd st = cwd self
  /\ (options st = options self
      \/ exists x, is_Some (options self !! key)
                   /\ options st = <[key := x]> (options self))
  /\ (errors st = errors self \/ exists e, errors st = errors self ++ [e])
  /\ (sys_path st = sys_path self
      \/ sys_path st = path.dirname filename :: sys_path self)
  /\ (r = Return tt ->
      (account_regexp st = account_regexp self
       /\ (options st = options self \/ PyStr.startswith key "name_" = false))
      \/ valid_account_regexp (options st) = Return (account_regexp st)).
Proof.
  cbv zeta. unfold option_merge, bind, options_getitem.
  pose (V := @valid_account_regexp H).
  change (@valid_account_regexp H) with V.
  set (D := path.dirname filename).
  set (SW := PyStr.startswith key "name_").
  set (IP := String.eqb key "insert_pythonpath").
  clearbody V D SW IP.
  destruct (options self !! key) as [opt|] eqn:Ek;
    [|cbn; repeat split; auto; discriminate].
  assert (Hsome : is_Some (Some opt)) by eauto.
  assert (Hfin : forall x (stored : bool),
    let st1 := if stored then set_options self (<[key := x]> (options self))
               else self in
    let res :=
      (if stored
       then if SW
            then fun self0 =>
                   match V (options self0) with
                   | Return r0 => (Return tt, set_account_regexp self0 r0)
                   | Raise e => (Raise e, self0)
                   end
            else if IP
                 then fun self0 =>
                        (Return tt, set_sys_path self0 (D :: sys_path self0))
                 else ret tt
       else ret tt) st1 in
    entries (snd res) = entries self /\ dcontext (snd res) = dcontext self
    /\ cwd (snd res) = cwd self
    /\ (options (snd res) = options self
        \/ exists x0, is_Some (Some opt)
                      /\ options (snd res) = <[key := x0]> (options self))
    /\ (errors (snd res) = errors self
        \/ exists e, errors (snd res) = errors self ++ [e])
    /\ (sys_path (snd res) = sys_path self
        \/ sys_path (snd res) = D :: sys_path self)
    /\ (fst res = Return tt ->
        (account_regexp (snd res) = account_regexp self
         /\ (options (snd res) = options self \/ SW = false))
        \/ V (options (snd res)) = Return (account_regexp (snd res)))).
  { intros x stored. cbv zeta. destruct stored; [|cbn; repeat split; auto].
    destruct SW.
    - cbn [options set_options].
      destruct (V (<[key := x]> (options self))) as [re|e] eqn:Ere;
        cbn; repeat split; eauto; intros; discriminate.
    - destruct IP; cbn; repeat split; eauto. }
  destruct opt as [| b | s | n | xs | xs | kvs | c fs].
  1-6, 8: try (destruct v as [| b' | s' | n' | xs' | xs' | kvs' | c' fs']);
    cbn [fst snd]; unfold options_setitem, ret, raise; cbn [fst snd];
    first [ apply (Hfin _ true)
          | cbn; repeat split; auto; discriminate ].
  (* a mapping *)
  destruct v as [| b' | s' | n' | [|a [|b2 [|c2 l2]]] | xs' | kvs' | c' fs'];
    try destruct (hashable a); try destruct meta as [m|];
    cbn [fst snd load_local]; unfold options_setitem, errors_append, ret, raise;
    cbn [fst snd];
    first [ apply (Hfin _ true)
          | cbn; repeat split; eauto; discriminate ].
Qed.

End OptionEffect.
Section OptionEffect2.
Context `{Collaborators}.

Lemma startswith_name_options key :
  PyStr.startswith key "name_" = false -> Forall (fun n => key <> n) name_options.
Proof.
  intros Hk. unfold name_options.
  repeat constructor; intros ->; vm_compute in Hk; discriminate.
Qed.

Lemma valid_account_regexp_insert key x (o : gmap string pyval) :
  PyStr.startswith key "name_" = false ->
  valid_account_regexp (<[key := x]> o) = valid_account_regexp o.
Proof.
  intros Hk. apply startswith_name_options in Hk.
  unfold name_options in Hk.
  repeat match goal with
         | Hf : Forall _ (_ :: _) |- _ => inversion Hf; subst; clear Hf
         end.
  unfold valid_account_regexp, getitems.
  rewrite !lookup_insert_ne by congruence. reflexivity.
Qed.

(** Every way through [option], at once. *)
Lemma option_effect filename lineno key value self r st :
  option_ filename lineno key value self = (r, st) ->
  entries st = entries self /\ dcontext st = dcontext self
  /\ cwd st = cwd self
  /\ (options st = options self
      \/ exists desc x,
          OPTIONS !! key = Some desc
          /\ is_Some (options self !! default key (truthy_str (opt_alias desc)))
          /\ options st
             = <[default key (truthy_str (opt_alias desc)) := x]> (options self))
  /\ (exists new, errors st = errors self ++ new /\ (length new <= 2)%nat)
  /\ (sys_path st = sys_path self
      \/ sys_path st = path.dirname filename :: sys_path self)
  /\ (r = Return tt -> regexp_in_sync self -> regexp_in_sync st).
Proof.
  unfold option_, regexp_in_sync. intros E.
  destruct (options self !! key) as [v0|] eqn:Ek.
  2: { injection E as <- <-. simpl. repeat split; auto.
       eexists. split; [reflexivity | simpl; lia]. }
  case_bool_decide as Hro.
  { injection E as <- <-. simpl. repeat split; auto.
    eexists. split; [reflexivity | simpl; lia]. }
  unfold bind at 1 in E. unfold OPTIONS_getitem at 1 in E.
  destruct (OPTIONS !! key) as [desc|] eqn:Ed.
  2: { injection E as <- <-. repeat split; auto; try (intros; discriminate).
       exists []. rewrite app_nil_r. auto. }
  unfold ret at 1 in E. rewrite <- Ed.
  (* the state and the local [meta] after the deprecation notice *)
  assert (Hdep : exists meta new0 st0,
             st0 = set_errors self (errors self ++ new0)
             /\ (length new0 <= 1)%nat
             /\ forall (k : option meta_dict -> M unit),
                 (do meta0 <-
                    match truthy_str (opt_deprecated desc) with
                    | Some text =>
                        let meta1 := new_metadata filename lineno None in
                        run errors_append
                              (DeprecatedError meta1 (Text text) None) ;;
                        ret (Some meta1)
                    | None => ret None
                    end ;;
                  k meta0) self = k meta st0).
  { destruct (truthy_str (opt_deprecated desc)) as [text|].
    - exists (Some (new_metadata filename lineno None)),
        [DeprecatedError (new_metadata filename lineno None) (Text text) None].
      eexists. split; [reflexivity|]. split; [simpl; lia|].
      intros k. reflexivity.
    - exists None, [], self. rewrite set_errors_app_nil.
      repeat split. simpl. lia. }
  destruct Hdep as (meta & new0 & st0 & Hst0 & Hlen0 & Hbind).
  rewrite Hbind in E. clear Hbind.
  assert (Hfr : entries st0 = entries self /\ dcontext st0 = dcontext self
                /\ cwd st0 = cwd self /\ options st0 = options self
                /\ sys_path st0 = sys_path self
                /\ account_regexp st0 = account_regexp self
                /\ errors st0 = errors self ++ new0).
  { subst st0. repeat split. }
  destruct Hfr as (Fe & Fd & Fc & Fo & Fs & Fa & Ferr).
  clear Hst0.
  (* the alias *)
  set (key' := default key (truthy_str (opt_alias desc))) in *.
  assert (Halias :
    (exists desc', OPTIONS !! key' = Some desc'
       /\ forall (k : string * OptDescriptor -> M unit),
           (do kd <-
              match truthy_str (opt_alias desc) with
              | Some alias => do d <- OPTIONS_getitem alias ;; ret (alias, d)
              | None => ret (key, desc)
              end ;;
            k kd) st0 = k (key', desc') st0)
    \/ (forall (k : string * OptDescriptor -> M unit),
           (do kd <-
              match truthy_str (opt_alias desc) with
              | Some alias => do d <- OPTIONS_getitem alias ;; ret (alias, d)
              | None => ret (key, desc)
              end ;;
            k kd) st0 = (Raise (KeyError key'), st0))).
  { subst key'. destruct (truthy_str (opt_alias desc)) as [alias|]; simpl.
    - unfold bind, OPTIONS_getitem.
      destruct (OPTIONS !! alias) as [d|] eqn:Ea.
      + left. exists d. split; [reflexivity|]. intros k. reflexivity.
      + right. intros k. reflexivity.
    - left. exists desc. split; [exact Ed|]. intros k. reflexivity. }
  destruct Halias as [(desc' & Ed' & Hk) | Hk]; rewrite Hk in E; clear Hk.
  2: { injection E as <- <-. rewrite Fe, Fd, Fc, Fo, Fs, Ferr.
       repeat split; auto; try (intros; discriminate).
       exists new0. split; [reflexivity | lia]. }
  cbn [fst snd] in E.
  (* the converter, then the merge *)
  assert (Hmerge : forall v,
    option_merge filename key' v meta st0 = (r, st) ->
    entries st = entries self /\ dcontext st = dcontext self
    /\ cwd st = cwd self
    /\ (options st = options self
        \/ exists desc0 x,
            OPTIONS !! key = Some desc0
            /\ is_Some (options self
                          !! default key (truthy_str (opt_alias desc0)))
            /\ options st
               = <[default key (truthy_str (opt_alias desc0)) := x]>
                   (options self))
    /\ (exists new, errors st = errors self ++ new /\ (length new <= 2)%nat)
    /\ (sys_path st = sys_path self
        \/ sys_path st = path.dirname filename :: sys_path self)
    /\ (r = Return tt ->
        valid_account_regexp (options self) = Return (account_regexp self) ->
        valid_account_regexp (options st) = Return (account_regexp st))).
  { intros v Ev.
    pose proof (option_merge_effect filename key' v meta st0) as Hm.
    rewrite Ev in Hm. cbn [fst snd] in Hm.
    destruct Hm as (Me & Md & Mc & Mo & Merr & Ms & Mre).
    rewrite Me, Md, Mc, Fe, Fd, Fc. repeat split.
    - destruct Mo as [Mo | (x & Hs & Mo)]; rewrite Mo, Fo; [left; reflexivity|].
      right. exists desc, x. rewrite Fo in Hs. auto.
    - destruct Merr as [Merr | (e & Merr)]; rewrite Merr, Ferr.
      + exists new0. split; [reflexivity | lia].
      + exists (new0 ++ [e]). rewrite app_assoc. split; [reflexivity|].
        rewrite length_app. simpl. lia.
    - destruct Ms as [Ms | Ms]; rewrite Ms, Fs; auto.
    - intros Hr Hsync. destruct (Mre Hr) as [[Hre Hopt] | Hre]; [|exact Hre].
      rewrite Hre, Fa. destruct Hopt as [Hopt | Hname].
      + rewrite Hopt, Fo. exact Hsync.
      + destruct Mo as [Mo | (x & _ & Mo)]; rewrite Mo, Fo; [exact Hsync|].
        rewrite valid_account_regexp_insert by exact Hname. exact Hsync. }
  destruct (opt_converter desc') as [conv|]; [|apply (Hmerge _ E)].
  destruct (conv value) as [v'|e]; [apply (Hmerge _ E)|].
  clear Hmerge.
  destruct e; unfold raise, errors_append in E; injection E as <- <-;
    cbn [entries dcontext cwd options sys_path account_regexp errors set_errors];
    rewrite ?Fe, ?Fd, ?Fc, ?Fo, ?Fs, ?Fa, ?Ferr; repeat split; auto;
    try (intros; discriminate);
    try (exists new0; split; [reflexivity | lia]);
    try (intros _ Hsync; rewrite Fo, Fa; exact Hsync).
  eexists. rewrite <- app_assoc. split; [reflexivity|].
  rewrite length_app. simpl. lia.
Qed.

End OptionEffect2.
(* --------------------------------------------------------------------- *)
(** ** [option]: frame, errors and merges *)
(* --------------------------------------------------------------------- *)

Section OptionFurther.
Context `{Collaborators}.

(** X1. Whatever the key and the value, and whether it returns or raises,
    a call of [option] leaves the entries, the display context and the
    working directory alone, neither adds a key to the option store nor
    removes one, only appends to the error list, at most two errors, and
    at most prepends one directory to [sys.path]. *)
Theorem option_frame filename lineno key value self :
  let st := snd (option_ filename lineno key value self) in
  entries st = entries self /\ dcontext st = dcontext self
  /\ cwd st = cwd self
  /\ dom (options st) = dom (options self)
  /\ (exists new, errors st = errors self ++ new /\ (length new <= 2)%nat)
  /\ (sys_path st = sys_path self
      \/ sys_path st = path.dirname filename :: sys_path self).
Proof.
  cbv zeta.
  destruct (option_ filename lineno key value self) as [r st] eqn:E.
  destruct (option_effect _ _ _ _ _ _ _ E) as (He & Hd & Hc & Ho & Herr & Hs & _).
  cbn [snd]. repeat split; auto.
  destruct Ho as [-> | (desc & x & _ & Hsome & ->)]; [reflexivity|].
  apply dom_insert_lookup_L, Hsome.
Qed.

(** X2. A call of [option] changes the store at one key at most: the key
    given, or the key it is an alias of. *)
Theorem option_touches_one_key filename lineno key value self k :
  options (snd (option_ filename lineno key value self)) !! k
  = options self !! k
  \/ exists desc,
      OPTIONS !! key = Some desc
      /\ k = default key (truthy_str (opt_alias desc)).
Proof.
  destruct (option_ filename lineno key value self) as [r st] eqn:E.
  destruct (option_effect _ _ _ _ _ _ _ E) as (_ & _ & _ & Ho & _).
  cbn [snd].
  destruct Ho as [-> | (desc & x & Hd & _ & ->)]; [left; reflexivity|].
  destruct (decide (k = default key (truthy_str (opt_alias desc)))) as [-> | Hne].
  - right. eauto.
  - left. rewrite lookup_insert_ne by congruence. reflexivity.
Qed.

(** X3. A key of the store that is read-only: one [ParserError] is
    recorded, and nothing else of the builder changes. *)
Theorem option_read_only_key filename lineno key value self :
  is_Some (options self !! key) ->
  key ∈ READ_ONLY_OPTIONS ->
  option_ filename lineno key value self
  = (Return tt,
     set_errors self
       (errors self
        ++ [ParserError (new_metadata filename lineno None)
              (Format "Option '{}' may not be set" [AStr key]) None])).
Proof.
  intros [v0 Hk] Hro. unfold option_. rewrite Hk.
  rewrite bool_decide_eq_true_2 by exact Hro. reflexivity.
Qed.

(** X4. A converter that fails.  A [ValueError] is caught: one
    [ParserError] naming the canonical key is recorded, after the
    deprecation notice if the key has one, the store is left as it was and
    the call returns.  Any other exception leaves [option]. *)
Theorem option_converter_failure filename lineno key value self
        v0 desc desc' conv e :
  options self !! key = Some v0 ->
  key ∉ READ_ONLY_OPTIONS ->
  OPTIONS !! key = Some desc ->
  OPTIONS !! default key (truthy_str (opt_alias desc)) = Some desc' ->
  opt_converter desc' = Some conv ->
  conv value = Raise e ->
  let meta := new_metadata filename lineno None in
  let notice :=
    match truthy_str (opt_deprecated desc) with
    | Some text => [DeprecatedError meta (Text text) None]
    | None => []
    end in
  option_ filename lineno key value self
  = match e with
    | ValueError text =>
        (Return tt,
         set_errors self
           (errors self ++ notice
            ++ [ParserError meta
                  (Format "Error for option '{}': {}"
                     [AStr (default key (truthy_str (opt_alias desc)));
                      AExn (ValueError text)])
                  None]))
    | _ => (Raise e, set_errors self (errors self ++ notice))
    end.
Proof.
  intros Hstore Hro Hdesc Hdesc' Hconv He. cbv zeta.
  unfold option_. rewrite Hstore.
  rewrite bool_decide_eq_false_2 by exact Hro.
  unfold bind at 1. unfold OPTIONS_getitem at 1. rewrite Hdesc. unfold ret at 1.
  destruct (truthy_str (opt_deprecated desc)) as [text|];
    destruct (truthy_str (opt_alias desc)) as [alias|]; simpl in Hdesc' |- *;
    unfold bind, OPTIONS_getitem, errors_append, ret, raise; simpl;
    rewrite ?Hdesc', ?Hdesc; simpl.
  all: try (assert (desc' = desc) as -> by congruence).
  all: rewrite Hconv, He.
  all: destruct e; simpl; rewrite ?set_errors_set_errors, ?app_nil_r,
         ?set_errors_id, <- ?app_assoc; reflexivity.
Qed.

(** X5. A list-typed key that reaches the merge: the value is appended
    to the list, after the items already there. *)
Theorem option_list_appends filename lineno key value self
        v0 desc desc' v items :
  options self !! key = Some v0 ->
  key ∉ READ_ONLY_OPTIONS ->
  OPTIONS !! key = Some desc ->
  OPTIONS !! default key (truthy_str (opt_alias desc)) = Some desc' ->
  default Return (opt_converter desc') value = Return v ->
  options self !! default key (truthy_str (opt_alias desc))
  = Some (VList items) ->
  options (snd (option_ filename lineno key value self))
  = <[default key (truthy_str (opt_alias desc)) := VList (items ++ [v])]>
      (options self).
Proof.
  intros Hstore Hro Hdesc Hdesc' Hconv Hlist.
  rewrite (option_reaches_merge _ _ _ _ _ _ _ _ _ Hstore Hro Hdesc Hdesc' Hconv).
  destruct (truthy_str (opt_deprecated desc)); cbv zeta;
    unfold option_merge, bind, options_getitem; simpl; rewrite Hlist; simpl;
    unfold options_setitem, ret; simpl;
    destruct (PyStr.startswith _ "name_"); simpl;
    try (destruct (valid_account_regexp _); reflexivity);
    destruct (String.eqb _ "insert_pythonpath"); reflexivity.
Qed.

Lemma py_eq_str_r k s : py_eq k (VStr s) = true -> k = VStr s.
Proof.
  destruct k; simpl; try discriminate.
  intros Hs. apply String.eqb_eq in Hs. congruence.
Qed.

Lemma dict_setitem_get_same d (sub : string) v :
  dict_getitem (dict_setitem d (VStr sub) v) (VStr sub) = Some v.
Proof.
  induction d as [|[k' v'] d IH]; simpl.
  - rewrite String.eqb_refl. reflexivity.
  - destruct (py_eq k' (VStr sub)) eqn:E; simpl; rewrite E; [reflexivity|].
    exact IH.
Qed.

Lemma dict_setitem_get_other d (sub other : string) v :
  other <> sub ->
  dict_getitem (dict_setitem d (VStr sub) v) (VStr other)
  = dict_getitem d (VStr other).
Proof.
  intros Hne. induction d as [|[k' v'] d IH]; simpl.
  - destruct (String.eqb sub other) eqn:E; [|reflexivity].
    apply String.eqb_eq in E. congruence.
  - destruct (py_eq k' (VStr sub)) eqn:E; simpl.
    + apply py_eq_str_r in E. subst k'. simpl.
      destruct (String.eqb sub other) eqn:E2; [|reflexivity].
      apply String.eqb_eq in E2. congruence.
    + rewrite IH. reflexivity.
Qed.

(** X6. A mapping-typed key that reaches the merge with a pair whose
    first component is a string: the stored mapping then gives the second
    component under that string, and what it gave under every other
    string before. *)
Theorem option_mapping_upsert filename lineno key value self
        v0 desc desc' items sub subvalue :
  options self !! key = Some v0 ->
  key ∉ READ_ONLY_OPTIONS ->
  OPTIONS !! key = Some desc ->
  OPTIONS !! default key (truthy_str (opt_alias desc)) = Some desc' ->
  default Return (opt_converter desc') value
  = Return (VTuple [VStr sub; subvalue]) ->
  options self !! default key (truthy_str (opt_alias desc))
  = Some (VDict items) ->
  exists items',
    options (snd (option_ filename lineno key value self))
    = <[default key (truthy_str (opt_alias desc)) := VDict items']>
        (options self)
    /\ dict_getitem items' (VStr sub) = Some subvalue
    /\ forall other, other <> sub ->
         dict_getitem items' (VStr other) = dict_getitem items (VStr other).
Proof.
  intros Hstore Hro Hdesc Hdesc' Hconv Hdict.
  exists (dict_setitem items (VStr sub) subvalue).
  split; [|split; [apply dict_setitem_get_same
                  | intros; apply dict_setitem_get_other; assumption]].
  rewrite (option_reaches_merge _ _ _ _ _ _ _ _ _ Hstore Hro Hdesc Hdesc' Hconv).
  destruct (truthy_str (opt_deprecated desc)); cbv zeta;
    unfold option_merge, bind, options_getitem; simpl; rewrite Hdict; simpl;
    unfold options_setitem, ret; simpl;
    destruct (PyStr.startswith _ "name_"); simpl;
    try (destruct (valid_account_regexp _); reflexivity);
    destruct (String.eqb _ "insert_pythonpath"); reflexivity.
Qed.

End OptionFurther.
Lemma option_read_only_key_witness :
  exists e,
    @option_ example_collaborators "/x/main.txt" 8 "filename" (VStr "other.txt")
             example_self
    = (Return tt, set_errors example_self [e]).
Proof.
  eexists.
  refine (@option_read_only_key example_collaborators "/x/main.txt" 8
            "filename" (VStr "other.txt") example_self _ _).
  - exists VNone. reflexivity.
  - apply (bool_decide_unpack _). vm_compute. exact I.
Defined.

Lemma option_converter_failure_witness :
  exists e,
    @option_ converting_collaborators "/x/main.txt" 8 "booking_method"
             (VStr "NOTAREALMETHOD") example_self
    = (Return tt, set_errors example_self [e]).
Proof.
  assert (Hro : "booking_method" ∉ @READ_ONLY_OPTIONS converting_collaborators).
  { apply (bool_decide_unpack _). vm_compute. exact I. }
  eexists.
  exact (@option_converter_failure converting_collaborators "/x/main.txt" 8
           "booking_method" (VStr "NOTAREALMETHOD") example_self
           (VObj "Booking" [VStr "STRICT"])
           (mkOpt None None (Some example_booking_converter))
           (mkOpt None None (Some example_booking_converter))
           example_booking_converter (ValueError "Invalid booking method")
           eq_refl Hro eq_refl eq_refl eq_refl eq_refl).
Defined.

Lemma option_list_appends_witness :
  options (snd (@option_ example_collaborators "/x/main.txt" 8
                         "operating_currency" (VStr "USD") example_self))
  = <["operating_currency" := VList [VStr "USD"]]> (options example_self).
Proof.
  assert (Hro : "operating_currency" ∉ @READ_ONLY_OPTIONS example_collaborators).
  { apply (bool_decide_unpack _). vm_compute. exact I. }
  exact (@option_list_appends example_collaborators "/x/main.txt" 8
           "operating_currency" (VStr "USD") example_self (VList []) plain plain
           (VStr "USD") [] eq_refl Hro eq_refl eq_refl eq_refl eq_refl).
Defined.

Lemma option_mapping_upsert_witness :
  exists items',
    options (snd (@option_ example_collaborators "/x/main.txt" 8
                           "tolerance_map"
                           (VTuple [VStr "USD"; VStr "0.01"]) example_self))
    = <["tolerance_map" := VDict items']> (options example_self)
    /\ dict_getitem items' (VStr "USD") = Some (VStr "0.01").
Proof.
  assert (Hro : "tolerance_map" ∉ @READ_ONLY_OPTIONS example_collaborators).
  { apply (bool_decide_unpack _). vm_compute. exact I. }
  destruct (@option_mapping_upsert example_collaborators "/x/main.txt" 8
              "tolerance_map" (VTuple [VStr "USD"; VStr "0.01"]) example_self
              (VDict []) plain plain [] "USD" (VStr "0.01")
              eq_refl Hro eq_refl eq_refl eq_refl eq_refl)
    as (items' & Hopt & Hget & _).
  exists items'. split; assumption.
Defined.
(* --------------------------------------------------------------------- *)
(** ** The pattern of account names *)
(* --------------------------------------------------------------------- *)

Section AccountRegexp.
Context `{Collaborators}.



End AccountRegexp.
Section InitProperties.
Context `{Collaborators}.





End InitProperties.
(* --------------------------------------------------------------------- *)
(** ** [include], [plugin], [handle_list] and [store_result] *)
(* --------------------------------------------------------------------- *)

Lemma options_append_sequence key (mk : string -> pyval) names :
  forall self items,
    options self !! key = Some (VList items) ->
    fst (sequence_ (map (fun n => options_append key (mk n)) names) self)
    = Return tt
    /\ options (snd (sequence_ (map (fun n => options_append key (mk n)) names)
                               self))
       !! key
       = Some (VList (items ++ map mk names))
    /\ forall k, k <> key ->
         options (snd (sequence_ (map (fun n => options_append key (mk n))
                                      names) self)) !! k
         = options self !! k.
Proof.
  induction names as [|n names IH]; intros self items Hk.
  - cbn. rewrite app_nil_r. auto.
  - cbn [map sequence_]. unfold bind at 1 2 3.
    unfold options_append at 1 3 5. unfold bind, options_getitem.
    rewrite Hk. cbn [options_setitem].
    unfold options_setitem.
    destruct (IH (set_options self
                    (<[key := VList (items ++ [mk n])]> (options self)))
                 (items ++ [mk n])) as (Hr & Hl & Ho).
    { cbn. apply lookup_insert_eq. }
    split; [exact Hr|]. split.
    + rewrite Hl, <- app_assoc. reflexivity.
    + intros k Hne. rewrite Ho by exact Hne. cbn.
      apply lookup_insert_ne. congruence.
Qed.

(** X9. Includes accumulate: with a list under the key [include], a run
    of [include] calls returns, leaves under that key the list it held
    followed by the included names in call order, and leaves every other
    option as it was.  Without the key the call raises [KeyError]. *)
Theorem include_accumulates filename lineno names self :
  (forall items,
     options self !! "include" = Some (VList items) ->
     let res := sequence_ (map (include filename lineno) names) self in
     fst res = Return tt
     /\ options (snd res) !! "include"
        = Some (VList (items ++ map VStr names))
     /\ forall k, k <> "include" -> options (snd res) !! k = options self !! k)
  /\ (options self !! "include" = None ->
      forall name,
        include filename lineno name self = (Raise (KeyError "include"), self)).
Proof.
  split.
  - intros items Hk. cbv zeta.
    exact (options_append_sequence "include" VStr names self items Hk).
  - intros Hk name. unfold include, options_append, bind, options_getitem.
    rewrite Hk. reflexivity.
Qed.

(** X10. Plugins accumulate: with a list under the key [plugin], a run of
    [plugin] calls returns and leaves under that key the list it held
    followed by the pairs (name, configuration) in call order, a missing
    configuration being [None]; every other option is as it was. *)
Theorem plugin_accumulates filename lineno
        (calls : list (string * option string)) self items :
  options self !! "plugin" = Some (VList items) ->
  let res :=
    sequence_ (map (fun nc => plugin filename lineno (fst nc) (snd nc)) calls)
              self in
  let pair (nc : string * option string) :=
    VTuple [VStr (fst nc);
            match snd nc with Some c => VStr c | None => VNone end] in
  fst res = Return tt
  /\ options (snd res) !! "plugin" = Some (VList (items ++ map pair calls))
  /\ forall k, k <> "plugin" -> options (snd res) !! k = options self !! k.
Proof.
  intros Hk. cbv zeta.
  revert self items Hk.
  induction calls as [|[n c] calls IH]; intros self items Hk.
  - cbn. rewrite app_nil_r. auto.
  - cbn [map sequence_ fst snd]. unfold bind at 1 2 3.
    unfold plugin at 1 3 5. unfold options_append, bind, options_getitem.
    rewrite Hk. unfold options_setitem.
    match goal with
    | |- context [set_options self (<["plugin" := VList ?l]> _)] =>
        destruct (IH (set_options self (<["plugin" := VList l]> (options self)))
                     l) as (Hr & Hl & Ho)
    end.
    { cbn. apply lookup_insert_eq. }
    split; [exact Hr|]. split.
    + rewrite Hl, <- app_assoc. reflexivity.
    + intros k Hne. rewrite Ho by exact Hne. cbn.
      apply lookup_insert_ne. congruence.
Qed.

(** X11. A list built by [handle_list], one call per object, from [None]:
    it is the objects that are not [None], in order.  So a dropped
    transaction never enters the list of entries. *)
Theorem handle_list_fold {A} filename lineno (objects : list (option A))
        (start : option (list A)) :
  default [] (fold_left
                (fun acc x => Some (handle_list filename lineno acc x))
                objects start)
  = default [] start ++ omap id objects.
Proof.
  revert start. induction objects as [|x objects IH]; intros start.
  - cbn. rewrite app_nil_r. reflexivity.
  - cbn [fold_left]. rewrite IH. cbn [default].
    unfold handle_list. destruct x as [a|]; cbn.
    + rewrite <- app_assoc. reflexivity.
    + reflexivity.
Qed.

Lemma plugin_accumulates_witness :
  options (snd (sequence_
                  [plugin "/x/main.txt" 1 "beancount.plugins.auto" None;
                   plugin "/x/main.txt" 2 "my.plugin" (Some "cfg")]
                  session_self)) !! "plugin"
  = Some (VList [VTuple [VStr "beancount.plugins.auto"; VNone];
                 VTuple [VStr "my.plugin"; VStr "cfg"]]).
Proof.
  exact (proj1 (proj2 (plugin_accumulates "/x/main.txt" 1
                         [("beancount.plugins.auto", None);
                          ("my.plugin", Some "cfg")]
                         session_self [] eq_refl))).
Defined.

Section SortedFurther.
Context {A : Type} (key : A -> date * Z).

Lemma sortkey_le_not_ltb k1 k2 : sortkey_le k1 k2 -> sortkey_ltb k2 k1 = false.
Proof.
  intros Hle. destruct (sortkey_ltb k2 k1) eqn:E; [|reflexivity].
  apply sortkey_ltb_true in E. key_arith.
Qed.

Lemma insert_by_below x l :
  Forall (fun y => sortkey_le (key x) (key y)) l -> insert_by key x l = x :: l.
Proof.
  destruct l as [|y l]; [reflexivity|].
  intros Hall. apply Forall_cons in Hall. destruct Hall as [Hy _].
  simpl. rewrite (sortkey_le_not_ltb _ _ Hy). reflexivity.
Qed.

Lemma sorted_of_sorted l :
  StronglySorted (fun a b => sortkey_le (key a) (key b)) l -> sorted key l = l.
Proof.
  induction 1 as [|x l Hs IH Hall]; [reflexivity|].
  simpl. rewrite IH. apply insert_by_below, Hall.
Qed.

End SortedFurther.

(** X12. Entries that are already in order (by date, then by the priority
    of their kind) come back from the sort of [get_entries] as they are;
    in particular sorting a second time changes nothing. *)
Theorem get_entries_fixpoint `{Collaborators} (es : list Directive) :
  (StronglySorted (fun a b => sortkey_le (entry_sortkey a) (entry_sortkey b))
                  es ->
   sorted entry_sortkey es = es)
  /\ sorted entry_sortkey (sorted entry_sortkey es) = sorted entry_sortkey es.
Proof.
  split; [apply sorted_of_sorted|].
  apply sorted_of_sorted, sorted_sorted.
Qed.

(** X13. [store_result] then [finalize].  The entries returned are those
    stored, sorted, or the entries the builder already held when the list
    stored is empty or [None]; the errors are returned as they are; and the
    option map returned is the store with the file name under [filename]
    and the display context, told the value of [render_commas], under
    [dcontext]. *)
Theorem store_result_then_finalize `{Collaborators} filename lineno
        new_entries self commas :
  options self !! "render_commas" = Some commas ->
  let kept :=
    match new_entries with
    | Some (e :: es) => e :: es
    | _ => entries self
    end in
  exists opts st,
    (run store_result filename lineno new_entries ;; finalize) self
    = (Return (sorted entry_sortkey kept, errors self, opts), st)
    /\ options st = opts
    /\ opts !! "filename" = Some (VStr filename)
    /\ opts !! "dcontext"
       = Some (DisplayContext_val
                 (mkDisplayContext commas (dc_updates (dcontext self))))
    /\ forall k, k <> "filename" -> k <> "dcontext" ->
         opts !! k = options self !! k.
Proof.
  intros Hc. cbv zeta.
  unfold bind at 1. unfold store_result, options_setitem.
  unfold finalize, bind, options_getitem.
  assert (Hrc : forall st0 : BuilderState,
             options st0 = options self ->
             options (set_options st0 (<["filename" := VStr filename]> (options st0)))
               !! "render_commas" = Some commas).
  { intros st0 Ho. cbn. rewrite lookup_insert_ne by discriminate.
    rewrite Ho. exact Hc. }
  destruct new_entries as [[|e es]|];
    rewrite Hrc by reflexivity; cbn;
    (do 2 eexists; split; [reflexivity|]; split; [reflexivity|];
     split; [rewrite lookup_insert_ne by discriminate; apply lookup_insert_eq|];
     split; [apply lookup_insert_eq|];
     intros k Hf Hd; rewrite !lookup_insert_ne by congruence; reflexivity).
Qed.

Lemma store_result_then_finalize_witness :
  let meta := example_new_metadata "/x/main.txt" 1 None in
  let t := Transaction meta (mkDate 2014 2 1) 42 None "n" ∅ ∅ [] in
  let o := Open meta (mkDate 2014 2 1) "Assets:Cash" VNone VNone in
  exists opts st,
    (run store_result "/x/main.txt" 0 (Some [t; o]) ;;
     @finalize example_collaborators) example_self
    = (Return ([o; t], [], opts), st)
    /\ opts !! "filename" = Some (VStr "/x/main.txt").
Proof.
  cbv zeta.
  match goal with
  | |- exists _ _, bind (store_result _ _ ?ne) _ _ = _ /\ _ =>
      destruct (@store_result_then_finalize example_collaborators
                  "/x/main.txt" 0 ne example_self (VBool false) eq_refl)
        as (opts & st & Hrun & _ & Hf & _)
  end.
  exists opts, st. split; [exact Hrun | exact Hf].
Defined.
